(** * ppt2pdf: the conversion orchestrator and its command line front end

    A shallow embedding of [src/ppt2pdf/converter.py] and
    [src/ppt2pdf/cli.py].  The Python code is straight-line control flow
    around a handful of [pathlib], [shutil] and [subprocess] calls, so the
    development has three layers:

    - [Pathlib], [Fs], [Shutil]: a small executable model of the platform
      (Linux flavour: one file system without symbolic links, every
      directory searchable and writable, the executable bit the only
      permission bit; names are limited to [NAME_MAX] bytes and paths to
      [PATH_MAX], and no name holds a NUL byte; the encoding of the
      locale, in which [subprocess] decodes what it captures, is a
      parameter of the world);
    - [Converter]: [find_soffice], [_build_command] and [convert], written
      in an error-and-state monad over the [World];
    - [Cli]: [main], with [argparse] taken as a parameter. *)

From Stdlib Require Import String Ascii List ZArith QArith Bool Lia.
From stdpp Require Import base option gmap strings list.

Local Open Scope list_scope.
Local Open Scope string_scope.

(* ------------------------------------------------------------------ *)
(** ** Strings *)

Module Str.

(** [sep.join(xs)] *)
Fixpoint join (sep : string) (xs : list string) : string :=
  match xs with
  | [] => ""
  | [x] => x
  | x :: rest => x ++ sep ++ join sep rest
  end.

(** [s.split(c)] for a one-character separator: never empty, keeps
    empty fields. *)
Fixpoint split (c : ascii) (s : string) : list string :=
  match s with
  | EmptyString => [""]
  | String a rest =>
      if Ascii.eqb a c then "" :: split c rest
      else match split c rest with
           | [] => [String a ""]
           | f :: fs => String a f :: fs
           end
  end.

(** [s.rfind(c)]: index of the last occurrence, if any. *)
Fixpoint rfind (c : ascii) (s : string) : option nat :=
  match s with
  | EmptyString => None
  | String a rest =>
      match rfind c rest with
      | Some i => Some (S i)
      | None => if Ascii.eqb a c then Some 0 else None
      end
  end.

(** [s.startswith(p)] *)
Fixpoint startswith (p s : string) : bool :=
  match p, s with
  | EmptyString, _ => true
  | String a p', String b s' => Ascii.eqb a b && startswith p' s'
  | String _ _, EmptyString => false
  end.

Fixpoint endswith_char (c : ascii) (s : string) : bool :=
  match s with
  | EmptyString => false
  | String a EmptyString => Ascii.eqb a c
  | String _ rest => endswith_char c rest
  end.

(** [s.rstrip(c)] *)
Fixpoint rstrip (c : ascii) (s : string) : string :=
  match s with
  | EmptyString => EmptyString
  | String a rest =>
      match rstrip c rest with
      | EmptyString => if Ascii.eqb a c then EmptyString else String a EmptyString
      | kept => String a kept
      end
  end.

(** [c in s] for a character *)
Fixpoint has_char (c : ascii) (s : string) : bool :=
  match s with
  | EmptyString => false
  | String a rest => Ascii.eqb a c || has_char c rest
  end.

(** [s.replace("\r\n", "\n")] *)
Fixpoint replace_crlf (s : string) : string :=
  match s with
  | EmptyString => EmptyString
  | String a rest =>
      match rest with
      | String b rest' =>
          if Ascii.eqb a "013" && Ascii.eqb b "010"
          then String "010" (replace_crlf rest')
          else String a (replace_crlf rest)
      | EmptyString => String a EmptyString
      end
  end.

(** [s.replace("\r", "\n")] *)
Fixpoint replace_cr (s : string) : string :=
  match s with
  | EmptyString => EmptyString
  | String a rest =>
      String (if Ascii.eqb a "013" then "010"%char else a) (replace_cr rest)
  end.

(** [needle in hay], as a proposition. *)
Definition contains (hay needle : string) : Prop :=
  exists pre post, hay = pre ++ needle ++ post.

End Str.

(* ------------------------------------------------------------------ *)
(** ** pathlib (PurePosixPath) *)

Module Pathlib.

(** A parsed path: the root flag and the components.  [Path("")] and
    [Path(".")] are both the relative path without components. *)
Record Path := mkPath { absolute : bool; parts : list string }.

#[global] Instance Path_eq_dec : EqDecision Path.
Proof. solve_decision. Defined.

Definition keep_part (s : string) : bool :=
  negb (String.eqb s "" || String.eqb s ".").

(** [Path(s)] *)
Definition of_str (s : string) : Path :=
  mkPath (Str.startswith "/" s) (List.filter keep_part (Str.split "/" s)).

(** [str(p)] *)
Definition to_str (p : Path) : string :=
  if absolute p then "/" ++ Str.join "/" (parts p)
  else match parts p with
       | [] => "."
       | _ => Str.join "/" (parts p)
       end.

(** [p.parent] *)
Definition parent (p : Path) : Path :=
  mkPath (absolute p) (removelast (parts p)).

(** [p.name] *)
Definition name (p : Path) : string := List.last (parts p) "".

(** [p.stem]: the name up to its last dot, when that dot is neither the
    first nor the last character. *)
Definition stem (p : Path) : string :=
  let n := name p in
  match Str.rfind "." n with
  | Some i =>
      if (0 <? i)%nat && (i <? String.length n - 1)%nat
      then String.substring 0 i n
      else n
  | None => n
  end.

(** Whether [expanduser] has something to expand: a relative path whose
    first part starts with a tilde. *)
Definition has_tilde (p : Path) : bool :=
  negb (absolute p)
  && match parts p with
     | first :: _ => Str.startswith "~" first
     | [] => false
     end.

(** [p / s] *)
Definition joinpath (p : Path) (s : string) : Path :=
  let q := of_str s in
  if absolute q then q else mkPath (absolute p) (parts p ++ parts q)%list.

(** Lexical removal of [..]: with no symbolic links this is what
    [resolve] computes. *)
Fixpoint normalize (acc_rev : list string) (todo : list string) : list string :=
  match todo with
  | [] => rev acc_rev
  | c :: rest =>
      if String.eqb c ".." then normalize (tl acc_rev) rest
      else normalize (c :: acc_rev) rest
  end.

(** [p.resolve()] against the current directory [cwd] (non strict). *)
Definition resolve (cwd : list string) (p : Path) : Path :=
  mkPath true (normalize [] (if absolute p then parts p else (cwd ++ parts p)%list)).

End Pathlib.
Export Pathlib(Path, mkPath, absolute, parts).

Notation "p // s" := (Pathlib.joinpath p s) (at level 40, left associativity).

(* ------------------------------------------------------------------ *)
(** ** Exceptions *)

(** The exceptions the two modules raise, catch or let through.  The
    classes of [converter.py] come first; the others are raised by the
    library calls. *)
Inductive exn : Type :=
| ConversionError (msg : string)            (* RuntimeError *)
| LibreOfficeNotFoundError (msg : string)   (* FileNotFoundError *)
| FileNotFoundError (msg : string)
| ValueError (msg : string)
| UnicodeDecodeError (msg : string)         (* ValueError *)
| RuntimeError (msg : string)
| FileExistsError (msg : string)
| NotADirectoryError (msg : string)
| IsADirectoryError (msg : string)
| OSError (msg : string)
| TimeoutExpired (cmd : list string)
| CalledProcessError (returncode : Z) (cmd : list string) (output stderr : string).

(** [str(exc)] *)
Definition exn_str (e : exn) : string :=
  match e with
  | ConversionError m | LibreOfficeNotFoundError m | FileNotFoundError m
  | ValueError m | UnicodeDecodeError m | RuntimeError m | FileExistsError m
  | NotADirectoryError m | IsADirectoryError m | OSError m => m
  | TimeoutExpired cmd => "Command timed out: " ++ Str.join " " cmd
  | CalledProcessError _ cmd _ _ =>
      "Command returned non-zero exit status: " ++ Str.join " " cmd
  end.

(** [isinstance(e, FileNotFoundError)]: the class and its subclass. *)
Definition is_FileNotFoundError (e : exn) : bool :=
  match e with
  | FileNotFoundError _ | LibreOfficeNotFoundError _ => true
  | _ => false
  end.

Definition is_LibreOfficeNotFoundError (e : exn) : bool :=
  match e with LibreOfficeNotFoundError _ => true | _ => false end.

Definition is_ConversionError (e : exn) : bool :=
  match e with ConversionError _ => true | _ => false end.

Definition is_ValueError (e : exn) : bool :=
  match e with ValueError _ | UnicodeDecodeError _ => true | _ => false end.

(* ------------------------------------------------------------------ *)
(** ** The file system *)

Module Fs.

Inductive node : Type :=
| File (content : string) (executable : bool)
| Dir.

(** Keys are the components of absolute, normalised paths.  The root
    is always a directory. *)
Definition t := gmap (list string) node.

(** What is stored under a key. *)
Definition entry (fs : t) (p : list string) : option node :=
  match p with
  | [] => Some Dir
  | _ => fs !! p
  end.

(** The limits of Linux: bytes in a name, bytes in a path with its
    final NUL. *)
Definition NAME_MAX : nat := 255.
Definition PATH_MAX : nat := 4096.

Definition name_too_long (c : string) : bool :=
  (NAME_MAX <? String.length c)%nat.

(** The string the kernel is handed for the key [p]. *)
Definition path_string (p : list string) : string := "/" ++ Str.join "/" p.

Definition path_too_long (p : list string) : bool :=
  (PATH_MAX <=? String.length (path_string p))%nat.

Definition has_nul (p : list string) : bool :=
  existsb (Str.has_char "000") p.

Definition ENAMETOOLONG (p : list string) : exn :=
  OSError ("File name too long: " ++ path_string p).

Definition embedded_null : exn := ValueError "embedded null byte".

(** The path walk of the kernel, from the directory [done] down the
    names [todo]: a name is looked up in a directory only, and a name
    longer than [NAME_MAX] is refused there (ENAMETOOLONG); a missing
    entry (ENOENT) and a regular file in the way (ENOTDIR) give
    [None]. *)
Fixpoint walk (fs : t) (done todo : list string) : exn + option node :=
  match todo with
  | [] => inr (entry fs done)
  | c :: rest =>
      match entry fs done with
      | Some Dir =>
          if name_too_long c then inl (ENAMETOOLONG (done ++ todo)%list)
          else walk fs (done ++ [c])%list rest
      | _ => inr None
      end
  end.

(** [os.stat(p)]: [ValueError] for a NUL byte, [OSError] for a path or
    a name that is too long, else what is there, if anything. *)
Definition stat (fs : t) (p : list string) : exn + option node :=
  if has_nul p then inl embedded_null
  else if path_too_long p then inl (ENAMETOOLONG p)
  else walk fs [] p.

(** What can be seen at [p]. *)
Definition lookup (fs : t) (p : list string) : option node :=
  match stat fs p with
  | inr found => found
  | inl _ => None
  end.

Definition exists_ (fs : t) (p : list string) : bool :=
  match lookup fs p with Some _ => true | None => false end.

Definition is_file (fs : t) (p : list string) : bool :=
  match lookup fs p with Some (File _ _) => true | _ => false end.

Definition is_dir (fs : t) (p : list string) : bool :=
  match lookup fs p with Some Dir => true | _ => false end.

Definition read (fs : t) (p : list string) : option string :=
  match lookup fs p with Some (File c _) => Some c | _ => None end.

(** [mkdir(parents=True, exist_ok=True)] below the directory [done]:
    walks down, creating what is missing; a name that is too long is
    refused, a regular file in the way is an error ([FileExistsError] at
    the leaf, [NotADirectoryError] above it).  What was created before
    the error stays. *)
Fixpoint mkdirs (fs : t) (done todo : list string) : (exn + unit) * t :=
  match todo with
  | [] => (inr tt, fs)
  | c :: rest =>
      let here := (done ++ [c])%list in
      if name_too_long c then (inl (ENAMETOOLONG (done ++ todo)%list), fs)
      else
        match entry fs here with
        | Some Dir => mkdirs fs here rest
        | Some (File _ _) =>
            (inl (match rest with
                  | [] => FileExistsError ("File exists: " ++ path_string here)
                  | _ => NotADirectoryError
                           ("Not a directory: " ++ path_string (done ++ todo)%list)
                  end), fs)
        | None => mkdirs (<[here := Dir]> fs) here rest
        end
  end.

Definition mkdir_p (fs : t) (p : list string) : (exn + unit) * t :=
  if has_nul p then (inl embedded_null, fs)
  else if path_too_long p then (inl (ENAMETOOLONG p), fs)
  else mkdirs fs [] p.

Definition is_prefix (p q : list string) : bool :=
  bool_decide (take (length p) q = p).

Definition has_children (fs : t) (p : list string) : bool :=
  bool_decide (Exists (fun kv => p <> kv.1 /\ is_prefix p kv.1 = true) (map_to_list fs)).

(** Moving the subtree at [src] to [dst]. *)
Definition rekey (src dst k : list string) : list string :=
  if is_prefix src k then (dst ++ drop (length src) k)%list else k.

Definition move_tree (fs : t) (src dst : list string) : t :=
  list_to_map (List.map (fun kv => (rekey src dst kv.1, kv.2))
                        (map_to_list (delete dst fs))).

(** [os.replace(src, dst)], i.e. rename(2). *)
Definition replace (fs : t) (src dst : list string) : exn + t :=
  match stat fs src with
  | inl e => inl e
  | inr None =>
      inl (FileNotFoundError ("No such file or directory: " ++ path_string src))
  | inr (Some s) =>
      match stat fs dst with
      | inl e => inl e
      | inr there =>
          match lookup fs (removelast dst) with
          | None =>
              inl (FileNotFoundError
                     ("No such file or directory: " ++ path_string dst))
          | Some (File _ _) =>
              inl (NotADirectoryError ("Not a directory: " ++ path_string dst))
          | Some Dir =>
              if bool_decide (src = dst) then inr fs
              else
                match s, there with
                | File _ _, Some Dir =>
                    inl (IsADirectoryError ("Is a directory: " ++ path_string dst))
                | File c x, _ => inr (<[dst := File c x]> (delete src fs))
                | Dir, Some (File _ _) =>
                    inl (NotADirectoryError ("Not a directory: " ++ path_string dst))
                | Dir, _ =>
                    if is_prefix src dst
                    then inl (OSError ("Invalid argument: " ++ path_string dst))
                    else if has_children fs dst
                    then inl (OSError ("Directory not empty: " ++ path_string dst))
                    else inr (move_tree fs src dst)
                end
          end
      end
  end.

(** Where the kernel gets to from the directory [cur] along the
    components [todo] of a path that was not resolved: [..] goes up
    from an existing directory.  Every failure is [None]. *)
Fixpoint reach (fs : t) (cur todo : list string) : option node :=
  match todo with
  | [] => entry fs cur
  | c :: rest =>
      match entry fs cur with
      | Some Dir =>
          if String.eqb c ".." then reach fs (removelast cur) rest
          else if name_too_long c then None
          else reach fs (cur ++ [c])%list rest
      | _ => None
      end
  end.

End Fs.

(* ------------------------------------------------------------------ *)
(** ** The world a call runs in *)

Record World := mkWorld {
  w_fs : Fs.t;
  (** current directory: components of an absolute, normalised path *)
  w_cwd : list string;
  (** home directories by user name; [""] is the calling user *)
  w_homes : list (string * string);
  (** the directories [shutil.which] goes through, in order: the
      entries of [PATH], or of the system default when it is unset *)
  w_PATH : list string;
  (** strict decoding of bytes in the encoding of the locale; [None]
      where Python raises [UnicodeDecodeError] *)
  w_decode : string -> option string;
  (** the command of every [subprocess.run] so far, oldest first *)
  w_spawned : list (list string)
}.

Definition set_fs (fs : Fs.t) (w : World) : World :=
  mkWorld fs (w_cwd w) (w_homes w) (w_PATH w) (w_decode w) (w_spawned w).

Definition log_spawn (cmd : list string) (w : World) : World :=
  mkWorld (w_fs w) (w_cwd w) (w_homes w) (w_PATH w) (w_decode w)
          (w_spawned w ++ [cmd])%list.

(** *** The error-and-state monad *)

Definition M (A : Type) : Type := World -> (exn + A) * World.

Definition ret {A} (a : A) : M A := fun w => (inr a, w).
Definition raise {A} (e : exn) : M A := fun w => (inl e, w).

Definition bind {A B} (c : M A) (k : A -> M B) : M B :=
  fun w => match c w with
           | (inl e, w') => (inl e, w')
           | (inr a, w') => k a w'
           end.

(** [try: c  except ...: h]: [h e = None] when no clause matches [e]. *)
Definition try_except {A} (c : M A) (h : exn -> option (M A)) : M A :=
  fun w => match c w with
           | (inl e, w') =>
               match h e with
               | Some k => k w'
               | None => (inl e, w')
               end
           | ok => ok
           end.

Definition lift_fs (f : Fs.t -> exn + Fs.t) : M unit :=
  fun w => match f (w_fs w) with
           | inl e => (inl e, w)
           | inr fs' => (inr tt, set_fs fs' w)
           end.

Notation "'let*' x ':=' c 'in' k" := (bind c (fun x => k))
  (at level 10, x name, c at level 100, k at level 200, only parsing).

(** A computation that changes nothing of the world but the file
    system. *)
Definition only_fs {A} (c : M A) : Prop :=
  forall w r w', c w = (r, w') -> w' = set_fs (w_fs w') w.

(** *** [pathlib.Path] methods that touch the world *)

Module PathIO.

(** Where the kernel finds [p]: relative paths start at the current
    directory.  The paths [convert] hands to the kernel are resolved
    ones, or a name below a resolved one, so no [..] is left in them. *)
Definition locate (w : World) (p : Path) : list string :=
  parts (Pathlib.resolve (w_cwd w) p).

(** [os.path.expanduser(path)] for a [path] without a slash: the home
    directory of the user named after the tilde (of the calling user
    when no name follows), without its trailing slashes, and [/] when
    nothing is left of it; [path] itself when it has no tilde or the
    user is unknown. *)
Definition os_path_expanduser (w : World) (path : string) : string :=
  match path with
  | String "~" user =>
      match List.find (fun uh => String.eqb uh.1 user) (w_homes w) with
      | Some (_, userhome) =>
          let userhome := Str.rstrip "/" userhome in
          if String.eqb userhome "" then "/" else userhome
      | None => path
      end
  | _ => path
  end.

(** [p.expanduser()] *)
Definition expanduser (p : Path) : M Path :=
  fun w =>
    if Pathlib.has_tilde p then
      match parts p with
      | first :: rest =>
          let homedir := os_path_expanduser w first in
          if Str.startswith "~" homedir
          then (inl (RuntimeError "Could not determine home directory."), w)
          else
            let h := Pathlib.of_str homedir in
            (inr (mkPath (absolute h) (parts h ++ rest)%list), w)
      | [] => (inr p, w)
      end
    else (inr p, w).

(** [p.resolve()]: [os.path.realpath] calls [lstat] on every name of
    the path, which raises [ValueError] for a NUL byte; its [OSError]s
    are swallowed. *)
Definition resolve (p : Path) : M Path :=
  fun w =>
    if Fs.has_nul (parts p) then (inl Fs.embedded_null, w)
    else (inr (Pathlib.resolve (w_cwd w) p), w).

(** [p.stat()], with the errors [exists] and [is_file] ignore turned
    into "nothing there": [ValueError], and the [OSError]s that [walk]
    answers with [None]. *)
Definition stat_ignoring (p : Path) : M (option Fs.node) :=
  fun w =>
    match Fs.stat (w_fs w) (locate w p) with
    | inl e => if is_ValueError e then (inr None, w) else (inl e, w)
    | inr found => (inr found, w)
    end.

(** [p.exists()] *)
Definition exists_ (p : Path) : M bool :=
  let* found := stat_ignoring p in
  ret (match found with Some _ => true | None => false end).

(** [p.is_file()] *)
Definition is_file (p : Path) : M bool :=
  let* found := stat_ignoring p in
  ret (match found with Some (Fs.File _ _) => true | _ => false end).

(** [p.mkdir(parents=True, exist_ok=True)] *)
Definition mkdir_parents (p : Path) : M unit :=
  fun w =>
    let '(r, fs') := Fs.mkdir_p (w_fs w) (locate w p) in
    (r, set_fs fs' w).

(** [src.replace(dst)] *)
Definition replace (src dst : Path) : M unit :=
  fun w => lift_fs (fun fs => Fs.replace fs (locate w src) (locate w dst)) w.

End PathIO.

(** *** [shutil.which] *)

Module Shutil.

(** [os.path.join(dir, file)] for a [file] without a slash *)
Definition os_path_join (dir file : string) : string :=
  if String.eqb dir "" then file
  else if Str.endswith_char "/" dir then dir ++ file
  else dir ++ "/" ++ file.

(** [_access_check(name, F_OK | X_OK)]: [name] exists, may be
    executed, and is no directory.  [os.path.exists] and [os.access]
    answer [False] where the kernel refuses the path. *)
Definition access_check (w : World) (name : string) : bool :=
  let p := Pathlib.of_str name in
  if Str.has_char "000" name
     || (Fs.PATH_MAX <=? String.length name)%nat then false
  else
    match Fs.reach (w_fs w) (if absolute p then [] else w_cwd w) (parts p) with
    | Some (Fs.File _ executable) => executable
    | _ => false
    end.

Fixpoint search (w : World) (cmd : string) (dirs : list string) : option string :=
  match dirs with
  | [] => None
  | dir :: rest =>
      let name := os_path_join dir cmd in
      if access_check w name then Some name else search w cmd rest
  end.

(** [shutil.which(cmd)] for a bare command name: the first entry of
    [PATH] holding an executable regular file of that name. *)
Definition which (cmd : string) : M (option string) :=
  fun w => (inr (search w cmd (w_PATH w)), w).

End Shutil.

(* ------------------------------------------------------------------ *)
(** ** Python values at the interface *)

(** An argument of type [Path | str]. *)
Inductive path_like : Type :=
| PStr (s : string)
| PPath (p : Path).

(** [Path(x)] *)
Definition Path_of (x : path_like) : Path :=
  match x with
  | PStr s => Pathlib.of_str s
  | PPath p => p
  end.

(** [str(x)] *)
Definition str_of (x : path_like) : string :=
  match x with
  | PStr s => s
  | PPath p => Pathlib.to_str p
  end.

(** Truth value of a [Path | str | None]: [None] and the empty string
    are false, every [Path] object is true.  The result is the value
    when it is true. *)
Definition truthy (x : option path_like) : option path_like :=
  match x with
  | Some (PStr "") => None
  | other => other
  end.

Definition str_truthy (s : string) : bool := negb (String.eqb s "").

Definition nl : string := String (ascii_of_nat 10) "".

(* ------------------------------------------------------------------ *)
(** ** [subprocess.run] *)

(** What the operating system reports for one child process; [out] and
    [err] are the bytes it wrote. *)
Inductive proc_outcome : Type :=
| Exited (returncode : Z) (out err : string)
| TimedOut
| SpawnFailed (e : exn).

Record CompletedProcess := mkCompleted {
  cp_stdout : string;
  cp_stderr : string
}.

(** The external program: from the command, the timeout and the world it
    starts in to its outcome and the file system it leaves. *)
Definition runner : Type :=
  list string -> option Q -> World -> proc_outcome * Fs.t.

(** [data.replace("\r\n", "\n").replace("\r", "\n")] *)
Definition universal_newlines (text : string) : string :=
  Str.replace_cr (Str.replace_crlf text).

(** [Popen._translate_newlines(data, encoding, errors)] in text mode:
    strict decoding, then the line ends. *)
Definition translate_newlines (w : World) (data : string) : exn + string :=
  match w_decode w data with
  | Some text => inr (universal_newlines text)
  | None =>
      inl (UnicodeDecodeError "codec can't decode bytes of the captured output")
  end.

(** [subprocess.run(command, stdout=PIPE, stderr=PIPE, check=True,
    timeout=timeout, text=True)]: [communicate] decodes both streams
    before the exit status is looked at. *)
Definition subprocess_run (run : runner) (command : list string)
    (timeout : option Q) : M CompletedProcess :=
  fun w =>
    let '(outcome, fs') := run command timeout w in
    let w' := log_spawn command (set_fs fs' w) in
    match outcome with
    | Exited code out err =>
        match translate_newlines w out with
        | inl e => (inl e, w')
        | inr stdout =>
            match translate_newlines w err with
            | inl e => (inl e, w')
            | inr stderr =>
                if (code =? 0)%Z then (inr (mkCompleted stdout stderr), w')
                else (inl (CalledProcessError code command stdout stderr), w')
            end
        end
    | TimedOut => (inl (TimeoutExpired command), w')
    | SpawnFailed e => (inl e, w')
    end.
(* ------------------------------------------------------------------ *)
(** ** converter.py *)

Module Converter.

Record ConversionOptions := mkOptions {
  soffice_path : Path;
  timeout : option Q;
  extra_args : option (list string)
}.

Record ConversionResult := mkResult {
  input_path : Path;
  output_path : Path;
  command : list string;
  stdout : string;
  stderr : string
}.

Definition not_found_message : string :=
  "LibreOffice 'soffice' executable not found. Please install LibreOffice "
  ++ "and ensure 'soffice' is available on your PATH.".

(** [Path(x).expanduser().resolve()] *)
Definition expand_resolve (x : path_like) : M Path :=
  let* p := PathIO.expanduser (Path_of x) in
  PathIO.resolve p.

(** The tail of [find_soffice], from [shutil.which] on. *)
Definition search_PATH : M Path :=
  let* resolved := Shutil.which "soffice" in
  match resolved with
  | Some r =>
      if str_truthy r then ret (Pathlib.of_str r)
      else raise (LibreOfficeNotFoundError not_found_message)
  | None => raise (LibreOfficeNotFoundError not_found_message)
  end.

Definition find_soffice (candidate : option string) : M Path :=
  match candidate with
  | Some c =>
      if str_truthy c then
        let* path := expand_resolve (PStr c) in
        let* isf := PathIO.is_file path in
        if isf then ret path else search_PATH
      else search_PATH
  | None => search_PATH
  end.

(** [str(soffice_path) if soffice_path else None] *)
Definition soffice_candidate (soffice_path : option path_like) : option string :=
  match truthy soffice_path with
  | Some s => Some (str_of s)
  | None => None
  end.

Definition _build_command (options : ConversionOptions)
    (input_path output_dir : Path) : list string :=
  let command :=
    [ Pathlib.to_str (soffice_path options);
      "--headless";
      "--nologo";
      "--nofirststartwizard";
      "--convert-to";
      "pdf";
      "--outdir";
      Pathlib.to_str output_dir;
      Pathlib.to_str input_path ] in
  match extra_args options with
  | Some (a :: more) => (take 1 command ++ (a :: more) ++ drop 1 command)%list
  | _ => command
  end.

Definition missing_pdf_message : string :=
  "LibreOffice reported success but the expected PDF was not created.".

Definition failed_message (command : list string) (out err : string) : string :=
  "LibreOffice failed to convert the presentation." ++ nl
  ++ "Command: " ++ Str.join " " command ++ nl
  ++ "Stdout: " ++ out ++ nl
  ++ "Stderr: " ++ err.

Section WithRunner.

Variable run : runner.

Definition convert (input_file : path_like)
    (output_file output_dir soffice_path : option path_like)
    (timeout : option Q) (extra_args : option (list string))
  : M ConversionResult :=
  let* input_path := expand_resolve input_file in
  let* input_exists := PathIO.exists_ input_path in
  if negb input_exists then
    raise (FileNotFoundError
             ("Input file does not exist: " ++ Pathlib.to_str input_path))
  else
  match truthy output_file, truthy output_dir with
  | Some _, Some _ =>
      raise (ValueError "Specify either output_file or output_dir, not both.")
  | _, _ =>
  let* soffice := find_soffice (soffice_candidate soffice_path) in
  let* dirs := match truthy output_file with
           | Some f =>
               let* output_path := expand_resolve f in
               let* _ := PathIO.mkdir_parents (Pathlib.parent output_path) in
               ret (output_path, Pathlib.parent output_path)
           | None =>
               let* target_dir := match truthy output_dir with
                              | Some d => expand_resolve d
                              | None => ret (Pathlib.parent input_path)
                              end in
               let* _ := PathIO.mkdir_parents target_dir in
               ret (target_dir // (Pathlib.stem input_path ++ ".pdf"), target_dir)
           end in
  let '(output_path, target_dir) := dirs in
  let options := mkOptions soffice timeout extra_args in
  let command := _build_command options input_path target_dir in
  let* completed := try_except (subprocess_run run command timeout)
                  (fun exc =>
                     match exc with
                     | TimeoutExpired _ =>
                         Some (raise (ConversionError
                           "LibreOffice timed out while converting the presentation."))
                     | CalledProcessError _ _ out err =>
                         Some (raise (ConversionError (failed_message command out err)))
                     | _ => None
                     end) in
  let* output_exists := PathIO.exists_ output_path in
  let* output_path := (if negb output_exists then
                     let candidate := target_dir // (Pathlib.stem input_path ++ ".pdf") in
                     let* candidate_exists := PathIO.exists_ candidate in
                     if candidate_exists then ret candidate
                     else raise (ConversionError missing_pdf_message)
                   else ret output_path) in
  let* output_path := match truthy output_file with
                  | Some f =>
                      let* wanted := PathIO.resolve (Path_of f) in
                      if bool_decide (output_path <> wanted) then
                        let* dest := PathIO.resolve (Path_of f) in
                        let* _ := PathIO.replace output_path dest in
                        PathIO.resolve (Path_of f)
                      else ret output_path
                  | None => ret output_path
                  end in
  ret (mkResult input_path output_path command
                (cp_stdout completed) (cp_stderr completed))
  end.

(** *** The two halves of [convert]

    [prepare] is [convert] up to the point where the command is
    built, [finish] is the rest; [convert_split] below shows that
    [convert] is one after the other. *)

Record Plan := mkPlan {
  pl_input : Path;
  pl_output : Path;
  pl_target_dir : Path;
  pl_command : list string
}.

Definition prepare (input_file : path_like)
    (output_file output_dir soffice_path : option path_like)
    (timeout : option Q) (extra_args : option (list string)) : M Plan :=
  let* input_path := expand_resolve input_file in
  let* input_exists := PathIO.exists_ input_path in
  if negb input_exists then
    raise (FileNotFoundError
             ("Input file does not exist: " ++ Pathlib.to_str input_path))
  else
  match truthy output_file, truthy output_dir with
  | Some _, Some _ =>
      raise (ValueError "Specify either output_file or output_dir, not both.")
  | _, _ =>
  let* soffice := find_soffice (soffice_candidate soffice_path) in
  let* dirs := match truthy output_file with
           | Some f =>
               let* output_path := expand_resolve f in
               let* _ := PathIO.mkdir_parents (Pathlib.parent output_path) in
               ret (output_path, Pathlib.parent output_path)
           | None =>
               let* target_dir := match truthy output_dir with
                              | Some d => expand_resolve d
                              | None => ret (Pathlib.parent input_path)
                              end in
               let* _ := PathIO.mkdir_parents target_dir in
               ret (target_dir // (Pathlib.stem input_path ++ ".pdf"), target_dir)
           end in
  let '(output_path, target_dir) := dirs in
  ret (mkPlan input_path output_path target_dir
         (_build_command (mkOptions soffice timeout extra_args)
                         input_path target_dir))
  end.

Definition finish (output_file : option path_like) (timeout : option Q)
    (plan : Plan) : M ConversionResult :=
  let input_path := pl_input plan in
  let output_path := pl_output plan in
  let target_dir := pl_target_dir plan in
  let command := pl_command plan in
  let* completed := try_except (subprocess_run run command timeout)
                  (fun exc =>
                     match exc with
                     | TimeoutExpired _ =>
                         Some (raise (ConversionError
                           "LibreOffice timed out while converting the presentation."))
                     | CalledProcessError _ _ out err =>
                         Some (raise (ConversionError (failed_message command out err)))
                     | _ => None
                     end) in
  let* output_exists := PathIO.exists_ output_path in
  let* output_path := (if negb output_exists then
                     let candidate := target_dir // (Pathlib.stem input_path ++ ".pdf") in
                     let* candidate_exists := PathIO.exists_ candidate in
                     if candidate_exists then ret candidate
                     else raise (ConversionError missing_pdf_message)
                   else ret output_path) in
  let* output_path := match truthy output_file with
                  | Some f =>
                      let* wanted := PathIO.resolve (Path_of f) in
                      if bool_decide (output_path <> wanted) then
                        let* dest := PathIO.resolve (Path_of f) in
                        let* _ := PathIO.replace output_path dest in
                        PathIO.resolve (Path_of f)
                      else ret output_path
                  | None => ret output_path
                  end in
  ret (mkResult input_path output_path command
                (cp_stdout completed) (cp_stderr completed)).

End WithRunner.

End Converter.

(* ------------------------------------------------------------------ *)
(** ** cli.py *)

Module Cli.

(** The namespace [parse_args] builds: every path option has
    [type=Path], so [convert] receives [Path] objects or [None]. *)
Record Namespace := mkNamespace {
  ns_input : Path;
  ns_output : option Path;
  ns_outdir : option Path;
  ns_soffice : option Path;
  ns_timeout : option Q;
  ns_extra_args : option (list string)
}.

(** [parser.parse_args(argv)] either returns a namespace or leaves
    through [SystemExit] ([--help], [--version], a usage error) with
    what it printed. *)
Inductive parse_result : Type :=
| Parsed (args : Namespace)
| ParserExit (status : Z) (out err : string).

Record Console := mkConsole {
  con_stdout : string;
  con_stderr : string
}.

(** How a call of [main] ends. *)
Inductive termination : Type :=
| Returned (code : Z)
| SystemExit (code : Z).

(** The status of the process under [sys.exit(main())]. *)
Definition exit_code (t : termination) : Z :=
  match t with
  | Returned c => c
  | SystemExit c => c
  end.

Section WithParser.

(** [argparse], for the parser [_build_parser] returns. *)
Variable parse_args : list string -> parse_result.
(** [parser.format_usage()] *)
Variable usage : string.
Variable run : runner.

(** [parser.error(message)]: usage and message on the standard
    error, exit status 2. *)
Definition parser_error (message : string) : termination * Console :=
  (SystemExit 2,
   mkConsole "" (usage ++ "ppt2pdf: error: " ++ message ++ nl)).

Definition main (argv : list string) (w : World)
  : (termination * Console) * World :=
  match parse_args argv with
  | ParserExit status out err => ((SystemExit status, mkConsole out err), w)
  | Parsed args =>
      match Converter.convert run
              (PPath (ns_input args))
              (option_map PPath (ns_output args))
              (option_map PPath (ns_outdir args))
              (option_map PPath (ns_soffice args))
              (ns_timeout args)
              (ns_extra_args args) w with
      | (inl exc, w') =>
          if is_FileNotFoundError exc || is_LibreOfficeNotFoundError exc
             || is_ConversionError exc
          then (parser_error (exn_str exc), w')
          else (parser_error (exn_str exc), w')
      | (inr result, w') =>
          ((Returned 0,
            mkConsole (Pathlib.to_str (Converter.output_path result) ++ nl) ""),
           w')
      end
  end.

End WithParser.

End Cli.

(* ------------------------------------------------------------------ *)
(** ** A small world to run the code in

    The directory [/d] holds a presentation and an executable [soffice];
    [/d] is the current directory and the only entry of [PATH]; the
    locale's encoding is ASCII. *)

Module Demo.

Definition fs : Fs.t :=
  list_to_map
    [ (["d"], Fs.Dir);
      (["d"; "slides.pptx"], Fs.File "dummy" false);
      (["d"; "soffice"], Fs.File "" true) ].

(** Strict ASCII decoding. *)
Fixpoint ascii_decode (data : string) : option string :=
  match data with
  | EmptyString => Some EmptyString
  | String a rest =>
      if (nat_of_ascii a <? 128)%nat
      then option_map (String a) (ascii_decode rest)
      else None
  end.

Definition world : World :=
  mkWorld fs ["d"] [("", "/home/u")] ["/d"] ascii_decode [].

(** The same directory without the converter, and nothing on [PATH]. *)
Definition bare_world : World :=
  mkWorld (delete ["d"; "soffice"] fs) ["d"] [("", "/home/u")] []
          ascii_decode [].

(** [soffice] sits in [/d/bin], and [PATH] names that directory
    relative to the current one. *)
Definition relative_PATH_world : World :=
  mkWorld (<[ ["d"; "bin"; "soffice"] := Fs.File "" true ]>
             (<[ ["d"; "bin"] := Fs.Dir ]> fs))
          ["d"] [("", "/home/u")] ["bin"] ascii_decode [].

(** An earlier run left [/d/custom/presentation.pdf] behind. *)
Definition stale_world : World :=
  mkWorld (<[ ["d"; "custom"; "presentation.pdf"] := Fs.File "old" false ]>
             (<[ ["d"; "custom"] := Fs.Dir ]> fs))
          ["d"] [("", "/home/u")] ["/d"] ascii_decode [].

(** A converter that writes [pdf] to the given place and exits 0. *)
Definition writes (target : list string) : runner :=
  fun _ _ w => (Exited 0 "ok" "", <[ target := Fs.File "pdf" false ]> (w_fs w)).

(** A converter that exits 0 without writing anything. *)
Definition writes_nothing : runner :=
  fun _ _ w => (Exited 0 "ok" "", w_fs w).

(** A converter that fails. *)
Definition fails : runner :=
  fun _ _ w => (Exited 1 "" "boom", w_fs w).

(** A converter that does not finish in time. *)
Definition times_out : runner :=
  fun _ _ w => (TimedOut, w_fs w).

(** A converter the system refuses to start. *)
Definition cannot_start : runner :=
  fun _ _ w => (SpawnFailed (OSError "Permission denied: /d/soffice"), w_fs w).

(** The byte 0xff, which no ASCII (or UTF-8) text holds. *)
Definition xff : string := String "255" "".

(** A converter that writes [pdf] to the given place, a byte that does
    not decode to its standard output, and exits 0. *)
Definition writes_garbled (target : list string) : runner :=
  fun _ _ w => (Exited 0 xff "", <[ target := Fs.File "pdf" false ]> (w_fs w)).

(** A converter that fails with such a byte on its standard error. *)
Definition fails_garbled : runner :=
  fun _ _ w => (Exited 1 "" xff, w_fs w).

(** A converter that ends its lines the DOS way. *)
Definition writes_crlf (target : list string) : runner :=
  fun _ _ w =>
    (Exited 0 (String "a" (String "013" (String "010" "b"))) (String "013" ""),
     <[ target := Fs.File "pdf" false ]> (w_fs w)).

(** A name of 256 bytes. *)
Definition long_name : string :=
  string_of_list_ascii (List.repeat "a"%char 256).

(** A parser for [ppt2pdf INPUT] alone. *)
Definition parse_one (argv : list string) : Cli.parse_result :=
  match argv with
  | [input] =>
      Cli.Parsed (Cli.mkNamespace (Pathlib.of_str input) None None None None None)
  | _ => Cli.ParserExit 2 "" "usage: ppt2pdf input"
  end.

End Demo.
(* ------------------------------------------------------------------ *)
(** * Properties *)

(** ** The command line of the converter *)

(** C5: [_build_command] yields the executable, then the caller's extra
    arguments, then the seven built-in words ending in the working
    directory, then the input path. *)
Theorem build_command_layout (exe inp dir : Path) (t : option Q)
    (extra : option (list string)) :
  Converter._build_command (Converter.mkOptions exe t extra) inp dir
  = (Pathlib.to_str exe :: default [] extra
       ++ [ "--headless"; "--nologo"; "--nofirststartwizard";
            "--convert-to"; "pdf"; "--outdir";
            Pathlib.to_str dir; Pathlib.to_str inp ])%list.
Proof.
  unfold Converter._build_command; simpl.
  destruct extra as [[|a more]|]; reflexivity.
Qed.

(** ** Steps that only look *)

Lemma set_fs_same (w : World) : set_fs (w_fs w) w = w.
Proof. destruct w; reflexivity. Qed.

(** A computation that returns has gone through both halves of a
    [bind]. *)
Lemma bind_inr {A B} (c : M A) (k : A -> M B) (w w' : World) (b : B) :
  bind c k w = (inr b, w') ->
  exists a w1, c w = (inr a, w1) /\ k a w1 = (inr b, w').
Proof.
  unfold bind. destruct (c w) as [[e|a] w1]; [discriminate|].
  intros H. exists a, w1. split; [reflexivity|exact H].
Qed.

Lemma expanduser_world (p : Path) (w : World) :
  snd (PathIO.expanduser p w) = w.
Proof.
  unfold PathIO.expanduser.
  destruct (Pathlib.has_tilde p); [|reflexivity].
  destruct (parts p) as [|first rest]; [reflexivity|].
  destruct (Str.startswith "~" _); reflexivity.
Qed.

(** Without a leading tilde there is nothing to expand. *)
Lemma expanduser_no_tilde (p : Path) (w : World) :
  Pathlib.has_tilde p = false -> PathIO.expanduser p w = (inr p, w).
Proof. unfold PathIO.expanduser. intros ->. reflexivity. Qed.

Lemma resolve_inv (p q : Path) (w w' : World) :
  PathIO.resolve p w = (inr q, w') ->
  w' = w /\ q = Pathlib.resolve (w_cwd w) p /\ Fs.has_nul (parts p) = false.
Proof.
  unfold PathIO.resolve. destruct (Fs.has_nul (parts p)); [discriminate|].
  intros [= <- <-]. auto.
Qed.

Lemma resolve_world (p : Path) (w : World) : snd (PathIO.resolve p w) = w.
Proof. unfold PathIO.resolve. destruct (Fs.has_nul (parts p)); reflexivity. Qed.

Lemma expand_resolve_world (x : path_like) (w : World) :
  snd (Converter.expand_resolve x w) = w.
Proof.
  unfold Converter.expand_resolve, bind.
  pose proof (expanduser_world (Path_of x) w) as Hw.
  destruct (PathIO.expanduser (Path_of x) w) as [[e|p] w']; simpl in *;
    subst; [reflexivity|apply resolve_world].
Qed.

Lemma expand_resolve_inv (x : path_like) (w w' : World) (r : exn + Path) :
  Converter.expand_resolve x w = (r, w') -> w' = w.
Proof.
  intros H. pose proof (expand_resolve_world x w) as Hw.
  rewrite H in Hw. exact Hw.
Qed.

(** What [resolve] returns is rooted. *)
Lemma expand_resolve_absolute (x : path_like) (w w' : World) (p : Path) :
  Converter.expand_resolve x w = (inr p, w') -> absolute p = true.
Proof.
  intros H. apply bind_inr in H as (q & w1 & _ & H).
  apply resolve_inv in H as (_ & -> & _). reflexivity.
Qed.

(** With no tilde to expand, [Path(x).expanduser().resolve()] is
    [Path(x).resolve()]. *)
Lemma expand_resolve_no_tilde (x : path_like) (w : World) :
  Pathlib.has_tilde (Path_of x) = false ->
  Converter.expand_resolve x w = PathIO.resolve (Path_of x) w.
Proof.
  intros Hx. unfold Converter.expand_resolve, bind.
  rewrite expanduser_no_tilde by exact Hx. reflexivity.
Qed.

Lemma stat_ignoring_world (p : Path) (w : World) :
  snd (PathIO.stat_ignoring p w) = w.
Proof.
  unfold PathIO.stat_ignoring.
  destruct (Fs.stat _ _) as [e|found]; [|reflexivity].
  destruct (is_ValueError e); reflexivity.
Qed.

(** When [stat] answers, [lookup] is its answer. *)
Lemma stat_ignoring_inv (p : Path) (w w' : World) (found : option Fs.node) :
  PathIO.stat_ignoring p w = (inr found, w') ->
  w' = w /\ found = Fs.lookup (w_fs w) (PathIO.locate w p).
Proof.
  unfold PathIO.stat_ignoring, Fs.lookup.
  destruct (Fs.stat _ _) as [e|o].
  - destruct (is_ValueError e); [|discriminate]. intros [= <- <-]. auto.
  - intros [= <- <-]. auto.
Qed.

Lemma stat_ignoring_Some (p : Path) (w : World) (v : Fs.node) :
  Fs.lookup (w_fs w) (PathIO.locate w p) = Some v ->
  PathIO.stat_ignoring p w = (inr (Some v), w).
Proof.
  unfold PathIO.stat_ignoring, Fs.lookup.
  destruct (Fs.stat _ _) as [e|o]; [discriminate|]. intros ->. reflexivity.
Qed.

Lemma exists_world (p : Path) (w : World) : snd (PathIO.exists_ p w) = w.
Proof.
  unfold PathIO.exists_, bind.
  pose proof (stat_ignoring_world p w) as Hw.
  destruct (PathIO.stat_ignoring p w) as [[e|o] w']; exact Hw.
Qed.

(** [exists] answers [True] exactly for what [lookup] sees. *)
Lemma exists_inv (p : Path) (w w' : World) (b : bool) :
  PathIO.exists_ p w = (inr b, w') ->
  w' = w /\ b = Fs.exists_ (w_fs w) (PathIO.locate w p).
Proof.
  intros H. apply bind_inr in H as (o & w1 & Hs & H).
  apply stat_ignoring_inv in Hs as (-> & ->).
  unfold ret in H. injection H as <- <-. auto.
Qed.

Lemma exists_true (p : Path) (w : World) :
  Fs.exists_ (w_fs w) (PathIO.locate w p) = true ->
  PathIO.exists_ p w = (inr true, w).
Proof.
  unfold Fs.exists_. intros H.
  destruct (Fs.lookup (w_fs w) (PathIO.locate w p)) as [v|] eqn:Hl;
    [|discriminate].
  unfold PathIO.exists_, bind. rewrite (stat_ignoring_Some _ _ _ Hl).
  reflexivity.
Qed.

Lemma is_file_world (p : Path) (w : World) : snd (PathIO.is_file p w) = w.
Proof.
  unfold PathIO.is_file, bind.
  pose proof (stat_ignoring_world p w) as Hw.
  destruct (PathIO.stat_ignoring p w) as [[e|o] w']; exact Hw.
Qed.

Lemma is_file_inv (p : Path) (w w' : World) (b : bool) :
  PathIO.is_file p w = (inr b, w') ->
  w' = w /\ b = Fs.is_file (w_fs w) (PathIO.locate w p).
Proof.
  intros H. apply bind_inr in H as (o & w1 & Hs & H).
  apply stat_ignoring_inv in Hs as (-> & ->).
  unfold ret in H. injection H as <- <-. auto.
Qed.

Lemma search_PATH_world (w : World) :
  snd (Converter.search_PATH w) = w.
Proof.
  unfold Converter.search_PATH, bind, Shutil.which.
  destruct (Shutil.search w "soffice" (w_PATH w)) as [r|]; [|reflexivity].
  destruct (str_truthy r); reflexivity.
Qed.

Lemma find_soffice_world (candidate : option string) (w : World) :
  snd (Converter.find_soffice candidate w) = w.
Proof.
  unfold Converter.find_soffice.
  destruct candidate as [c|]; [|apply search_PATH_world].
  destruct (str_truthy c); [|apply search_PATH_world].
  unfold bind.
  destruct (Converter.expand_resolve (PStr c) w) as [[e|p] w1] eqn:Her;
    apply expand_resolve_inv in Her; subst w1; [reflexivity|].
  pose proof (is_file_world p w) as Hw.
  destruct (PathIO.is_file p w) as [[e|isf] w1]; cbn in Hw; subst w1;
    [reflexivity|].
  destruct isf; [reflexivity|apply search_PATH_world].
Qed.

Lemma find_soffice_inv (candidate : option string) (w w' : World)
    (r : exn + Path) :
  Converter.find_soffice candidate w = (r, w') -> w' = w.
Proof.
  intros H. pose proof (find_soffice_world candidate w) as Hw.
  rewrite H in Hw. exact Hw.
Qed.

(** *** [convert] is [prepare] followed by [finish] *)

Lemma convert_split (run : runner) (input : path_like)
    (output_file output_dir soffice_path : option path_like)
    (timeout : option Q) (extra_args : option (list string)) (w : World) :
  Converter.convert run input output_file output_dir soffice_path
                    timeout extra_args w
  = bind (Converter.prepare input output_file output_dir soffice_path
                            timeout extra_args)
         (Converter.finish run output_file timeout) w.
Proof.
  unfold Converter.convert, Converter.prepare, Converter.finish, bind.
  destruct (Converter.expand_resolve input w) as [[e|ip] w1]; [reflexivity|].
  destruct (PathIO.exists_ ip w1) as [[e|b] w2]; [reflexivity|].
  destruct b; simpl; [|reflexivity].
  destruct (truthy output_file) as [f|] eqn:Hf;
    destruct (truthy output_dir) as [d|] eqn:Hd; try reflexivity;
    unfold bind;
    (destruct (Converter.find_soffice _ w2) as [[e|exe] w3]; [reflexivity|]).
  - destruct (Converter.expand_resolve f w3) as [[e|op] w4]; [reflexivity|].
    destruct (PathIO.mkdir_parents _ w4) as [[e|[]] w5]; reflexivity.
  - destruct (Converter.expand_resolve d w3) as [[e|td] w4]; [reflexivity|].
    destruct (PathIO.mkdir_parents _ w4) as [[e|[]] w5]; reflexivity.
  - unfold ret.
    destruct (PathIO.mkdir_parents _ w3) as [[e|[]] w5]; reflexivity.
Qed.

(** ** The guards of [convert] *)

(** C10, as amended: when the input path can be expanded and resolved
    and [exists] answers [False] for it, [convert] raises
    [FileNotFoundError] whatever the other arguments are, and the world
    is left as it was: neither the mutual-exclusion check nor the
    locator gets a say.  An input path that cannot be expanded or
    resolved, or that [exists] cannot examine, makes [convert] fail
    with that very error, in the same place. *)
Theorem missing_input_raises_first (run : runner) (input : path_like)
    (output_file output_dir soffice_path : option path_like)
    (timeout : option Q) (extra_args : option (list string)) (w : World) :
  (forall ip,
      Converter.expand_resolve input w = (inr ip, w) ->
      PathIO.exists_ ip w = (inr false, w) ->
      Converter.convert run input output_file output_dir soffice_path
                        timeout extra_args w
      = (inl (FileNotFoundError
                ("Input file does not exist: " ++ Pathlib.to_str ip)), w))
  /\ (forall e,
        Converter.expand_resolve input w = (inl e, w) ->
        Converter.convert run input output_file output_dir soffice_path
                          timeout extra_args w
        = (inl e, w))
  /\ (forall ip e,
        Converter.expand_resolve input w = (inr ip, w) ->
        PathIO.exists_ ip w = (inl e, w) ->
        Converter.convert run input output_file output_dir soffice_path
                          timeout extra_args w
        = (inl e, w)).
Proof.
  repeat split.
  - intros ip Hres Hmissing. unfold Converter.convert, bind.
    rewrite Hres, Hmissing. reflexivity.
  - intros e Hres. unfold Converter.convert, bind. rewrite Hres. reflexivity.
  - intros ip e Hres Hfail. unfold Converter.convert, bind.
    rewrite Hres, Hfail. reflexivity.
Qed.

Lemma missing_input_raises_first_witness :
  Converter.convert Demo.fails (PStr "missing.pptx")
    (Some (PStr "a.pdf")) (Some (PStr "out")) None None None Demo.bare_world
  = (inl (FileNotFoundError "Input file does not exist: /d/missing.pptx"),
     Demo.bare_world).
Proof.
  apply (proj1 (missing_input_raises_first Demo.fails (PStr "missing.pptx")
                  (Some (PStr "a.pdf")) (Some (PStr "out")) None None None
                  Demo.bare_world)
           (mkPath true ["d"; "missing.pptx"]));
    vm_compute; reflexivity.
Defined.

(** C10 as it stands fails: three inputs that do not exist, none of
    them reported by [FileNotFoundError].  The home directory of
    [~ghost] is unknown, so [expanduser] raises [RuntimeError]; a name
    with a NUL byte makes [resolve] raise [ValueError]; and for a name
    of 256 bytes [exists] lets the [OSError] of [stat] through. *)
Lemma missing_input_not_always_FileNotFoundError :
  (Fs.exists_ (w_fs Demo.bare_world) ["d"; "~ghost"; "missing.pptx"] = false
   /\ Converter.convert Demo.fails (PStr "~ghost/missing.pptx")
        (Some (PStr "a.pdf")) (Some (PStr "out")) None None None
        Demo.bare_world
      = (inl (RuntimeError "Could not determine home directory."),
         Demo.bare_world))
  /\ (Fs.exists_ (w_fs Demo.bare_world)
        ["d"; String "a" (String "000" "b.pptx")] = false
      /\ Converter.convert Demo.fails
           (PStr (String "a" (String "000" "b.pptx")))
           None None None None None Demo.bare_world
         = (inl (ValueError "embedded null byte"), Demo.bare_world))
  /\ (Fs.exists_ (w_fs Demo.bare_world) ["d"; Demo.long_name] = false
      /\ exists msg,
           Converter.convert Demo.fails (PStr ("/d/" ++ Demo.long_name))
             None None None None None Demo.bare_world
           = (inl (OSError msg), Demo.bare_world)).
Proof.
  split; [split; vm_compute; reflexivity|].
  split; [split; vm_compute; reflexivity|].
  split; [vm_compute; reflexivity|].
  eexists. vm_compute. reflexivity.
Qed.

(** C2, as amended: when the input exists, supplying both an output
    file and an output directory is rejected with [ValueError], whatever
    the remaining arguments are, and nothing has been touched. *)
Theorem conflicting_outputs_rejected (run : runner) (input : path_like)
    (output_file output_dir soffice_path : option path_like)
    (timeout : option Q) (extra_args : option (list string))
    (w : World) (ip : Path) (f d : path_like) :
  Converter.expand_resolve input w = (inr ip, w) ->
  Fs.exists_ (w_fs w) (PathIO.locate w ip) = true ->
  truthy output_file = Some f ->
  truthy output_dir = Some d ->
  Converter.convert run input output_file output_dir soffice_path
                    timeout extra_args w
  = (inl (ValueError "Specify either output_file or output_dir, not both."), w).
Proof.
  intros Hres Hex Hf Hd.
  unfold Converter.convert, bind.
  rewrite Hres, (exists_true _ _ Hex). simpl.
  rewrite Hf, Hd. reflexivity.
Qed.

Lemma conflicting_outputs_rejected_witness :
  Converter.convert Demo.fails (PStr "slides.pptx")
    (Some (PStr "slides.pdf")) (Some (PStr "/d")) None None None Demo.world
  = (inl (ValueError "Specify either output_file or output_dir, not both."),
     Demo.world).
Proof.
  apply (conflicting_outputs_rejected Demo.fails (PStr "slides.pptx")
           (Some (PStr "slides.pdf")) (Some (PStr "/d")) None None None
           Demo.world (mkPath true ["d"; "slides.pptx"])
           (PStr "slides.pdf") (PStr "/d"));
    vm_compute; reflexivity.
Defined.

(** C2 as it stands fails: with a missing input the same two arguments
    give [FileNotFoundError], the first guard coming first. *)
Lemma conflicting_outputs_not_always_ValueError :
  ~ (forall (run : runner) (input f d : path_like)
            (soffice_path : option path_like) (timeout : option Q)
            (extra_args : option (list string)) (w : World),
        truthy (Some f) = Some f ->
        truthy (Some d) = Some d ->
        exists msg w',
          Converter.convert run input (Some f) (Some d) soffice_path
                            timeout extra_args w
          = (inl (ValueError msg), w')).
Proof.
  intros H.
  destruct (H Demo.fails (PStr "missing.pptx") (PStr "a.pdf") (PStr "out")
              None None None Demo.bare_world eq_refl eq_refl)
    as (msg & w' & Hc).
  vm_compute in Hc. discriminate Hc.
Qed.

(** ** The locator *)

(** What [shutil.which] finds passed its access check under one of the
    directories it was given. *)
Lemma search_sound (w : World) (cmd : string) (dirs : list string) (r : string) :
  Shutil.search w cmd dirs = Some r ->
  exists dir, In dir dirs /\ r = Shutil.os_path_join dir cmd
    /\ Shutil.access_check w r = true.
Proof.
  induction dirs as [|dir rest IH]; simpl; [discriminate|].
  destruct (Shutil.access_check w (Shutil.os_path_join dir cmd)) eqn:Hx.
  - intros Hr. injection Hr as Hr. subst r. exists dir. auto.
  - intros Hr. destruct (IH Hr) as (dir' & Hin & Heq & Hok).
    exists dir'. auto.
Qed.

Lemma search_PATH_not_found (w : World) :
  Shutil.search w "soffice" (w_PATH w) = None ->
  Converter.search_PATH w
  = (inl (LibreOfficeNotFoundError Converter.not_found_message), w).
Proof.
  intros Hpath. unfold Converter.search_PATH, bind, Shutil.which.
  rewrite Hpath. reflexivity.
Qed.

(** What the [PATH] search returns was built from an entry of [PATH]
    and passed the access check of [shutil.which]. *)
Lemma search_PATH_found (w w' : World) (p : Path) :
  Converter.search_PATH w = (inr p, w') ->
  w' = w
  /\ exists dir, In dir (w_PATH w)
       /\ p = Pathlib.of_str (Shutil.os_path_join dir "soffice")
       /\ Shutil.access_check w (Shutil.os_path_join dir "soffice") = true.
Proof.
  unfold Converter.search_PATH, bind, Shutil.which.
  destruct (Shutil.search w "soffice" (w_PATH w)) as [r|] eqn:Hs;
    [|discriminate].
  destruct (str_truthy r); [|discriminate].
  intros [= <- <-]. split; [reflexivity|].
  destruct (search_sound _ _ _ _ Hs) as (dir & Hin & -> & Hok).
  exists dir. auto.
Qed.

(** A candidate that is a regular file is the answer. *)
Lemma find_soffice_candidate (c : string) (p : Path) (w : World) :
  str_truthy c = true ->
  Converter.expand_resolve (PStr c) w = (inr p, w) ->
  PathIO.is_file p w = (inr true, w) ->
  Converter.find_soffice (Some c) w = (inr p, w).
Proof.
  intros Hc Her Hf. unfold Converter.find_soffice, bind.
  rewrite Hc, Her, Hf. reflexivity.
Qed.

(** Without a candidate, or with one that is no regular file, the
    answer is that of the [PATH] search. *)
Lemma find_soffice_falls_back (candidate : option string) (w : World) :
  (candidate = None \/ candidate = Some ""
   \/ exists c p, candidate = Some c
        /\ Converter.expand_resolve (PStr c) w = (inr p, w)
        /\ PathIO.is_file p w = (inr false, w)) ->
  Converter.find_soffice candidate w = Converter.search_PATH w.
Proof.
  intros [->|[->|(c & p & -> & Her & Hnf)]]; try reflexivity.
  unfold Converter.find_soffice, bind.
  destruct (str_truthy c); [|reflexivity].
  rewrite Her, Hnf. reflexivity.
Qed.

(** A candidate that cannot be expanded, resolved or examined ends the
    search before it began. *)
Lemma find_soffice_candidate_error (c : string) (e : exn) (w : World) :
  str_truthy c = true ->
  (Converter.expand_resolve (PStr c) w = (inl e, w)
   \/ exists p, Converter.expand_resolve (PStr c) w = (inr p, w)
        /\ PathIO.is_file p w = (inl e, w)) ->
  Converter.find_soffice (Some c) w = (inl e, w).
Proof.
  intros Hc [Her|(p & Her & Hf)]; unfold Converter.find_soffice, bind;
    rewrite Hc, Her; [reflexivity|].
  rewrite Hf. reflexivity.
Qed.

(** C6, as amended: a usable candidate is returned at once, with no look
    at [PATH]; without a candidate, or with one that expands and
    resolves to something that is no regular file, the answer is that of
    the [PATH] search; a candidate that cannot be expanded, resolved or
    examined makes the locator fail with that error, [PATH] or not; and
    whatever the locator returns names an existing regular file, either
    the absolute path of the candidate or the path [shutil.which] built
    from an entry of [PATH] and found to be an executable regular file.
    The world is never changed. *)
Theorem find_soffice_spec (candidate : option string) (w : World) :
  (forall c p,
      candidate = Some c -> str_truthy c = true ->
      Converter.expand_resolve (PStr c) w = (inr p, w) ->
      PathIO.is_file p w = (inr true, w) ->
      Converter.find_soffice candidate w = (inr p, w))
  /\ ((candidate = None \/ candidate = Some ""
       \/ exists c p, candidate = Some c
            /\ Converter.expand_resolve (PStr c) w = (inr p, w)
            /\ PathIO.is_file p w = (inr false, w)) ->
      Converter.find_soffice candidate w = Converter.search_PATH w)
  /\ (forall c e,
        candidate = Some c -> str_truthy c = true ->
        (Converter.expand_resolve (PStr c) w = (inl e, w)
         \/ exists p, Converter.expand_resolve (PStr c) w = (inr p, w)
              /\ PathIO.is_file p w = (inl e, w)) ->
        Converter.find_soffice candidate w = (inl e, w))
  /\ (forall p w',
        Converter.find_soffice candidate w = (inr p, w') ->
        w' = w
        /\ ((exists c, candidate = Some c
               /\ Converter.expand_resolve (PStr c) w = (inr p, w)
               /\ absolute p = true
               /\ Fs.is_file (w_fs w) (PathIO.locate w p) = true)
            \/ (exists dir, In dir (w_PATH w)
                  /\ p = Pathlib.of_str (Shutil.os_path_join dir "soffice")
                  /\ Shutil.access_check w (Shutil.os_path_join dir "soffice")
                     = true)))
  /\ (forall e w',
        Converter.find_soffice candidate w = (inl e, w') -> w' = w).
Proof.
  split; [|split; [|split; [|split]]].
  - intros c p -> Hc Her Hf. apply find_soffice_candidate; assumption.
  - apply find_soffice_falls_back.
  - intros c e -> Hc Hfail. apply find_soffice_candidate_error; assumption.
  - intros p w' Hfind.
    split; [eapply find_soffice_inv; exact Hfind|].
    revert Hfind. unfold Converter.find_soffice.
    assert (Hpath : Converter.search_PATH w = (inr p, w') ->
              exists dir, In dir (w_PATH w)
                /\ p = Pathlib.of_str (Shutil.os_path_join dir "soffice")
                /\ Shutil.access_check w (Shutil.os_path_join dir "soffice")
                   = true).
    { intros H. apply search_PATH_found in H as [_ H]. exact H. }
    destruct candidate as [c|]; [|intros H; right; exact (Hpath H)].
    destruct (str_truthy c); [|intros H; right; exact (Hpath H)].
    unfold bind.
    destruct (Converter.expand_resolve (PStr c) w) as [[e|q] w1] eqn:Her;
      [discriminate|].
    apply expand_resolve_absolute in Her as Hq.
    apply expand_resolve_inv in Her as Hw. subst w1.
    destruct (PathIO.is_file q w) as [[e|isf] w1] eqn:Hf; [discriminate|].
    apply is_file_inv in Hf as (-> & ->).
    destruct (Fs.is_file (w_fs w) (PathIO.locate w q)) eqn:Hfile;
      [|intros H; right; exact (Hpath H)].
    intros [= <- _]. left. exists c. auto.
  - intros e w' Hfind. eapply find_soffice_inv; exact Hfind.
Qed.

Lemma find_soffice_spec_witness :
  Converter.find_soffice (Some "soffice") Demo.world
  = (inr (mkPath true ["d"; "soffice"]), Demo.world).
Proof.
  apply (proj1 (find_soffice_spec (Some "soffice") Demo.world)
           "soffice" (mkPath true ["d"; "soffice"]));
    vm_compute; reflexivity.
Defined.

(** C6 as it stands fails, in two ways.  The home directory of [~ghost]
    is unknown: with that candidate the locator raises the
    [RuntimeError] of [expanduser] although [PATH] holds [soffice],
    where the claim has [PATH] searched.  And found through a relative
    entry of [PATH], the executable comes back as the relative path
    [bin/soffice], where the claim has an absolute one. *)
Lemma find_soffice_not_as_claimed :
  (Converter.search_PATH Demo.world
   = (inr (mkPath true ["d"; "soffice"]), Demo.world)
   /\ Converter.find_soffice (Some "~ghost/soffice") Demo.world
      = (inl (RuntimeError "Could not determine home directory."), Demo.world))
  /\ (exists p,
        Converter.find_soffice None Demo.relative_PATH_world
        = (inr p, Demo.relative_PATH_world)
        /\ absolute p = false
        /\ Pathlib.to_str p = "bin/soffice").
Proof.
  split; [split; vm_compute; reflexivity|].
  eexists. repeat split; vm_compute; reflexivity.
Qed.

(** Whatever the locator raises leaves [convert] as it is, once the two
    guards before it have passed. *)
Lemma convert_propagates_locator_error (run : runner) (input : path_like)
    (output_file output_dir soffice_path : option path_like)
    (timeout : option Q) (extra_args : option (list string))
    (w : World) (ip : Path) (e : exn) :
  Converter.expand_resolve input w = (inr ip, w) ->
  Fs.exists_ (w_fs w) (PathIO.locate w ip) = true ->
  truthy output_file = None \/ truthy output_dir = None ->
  Converter.find_soffice (Converter.soffice_candidate soffice_path) w = (inl e, w) ->
  Converter.convert run input output_file output_dir soffice_path
                    timeout extra_args w
  = (inl e, w).
Proof.
  intros Hres Hex Hone Hloc.
  unfold Converter.convert, bind.
  rewrite Hres, (exists_true _ _ Hex). simpl.
  destruct Hone as [-> | ->].
  - unfold bind. rewrite Hloc. reflexivity.
  - destruct (truthy output_file); unfold bind; rewrite Hloc; reflexivity.
Qed.

(** No call in which the locator fails reaches [subprocess.run]. *)
Lemma convert_without_locator_spawns_nothing (run : runner) (input : path_like)
    (output_file output_dir soffice_path : option path_like)
    (timeout : option Q) (extra_args : option (list string))
    (w : World) (e : exn) :
  Converter.find_soffice (Converter.soffice_candidate soffice_path) w = (inl e, w) ->
  w_spawned (snd (Converter.convert run input output_file output_dir
                                    soffice_path timeout extra_args w))
  = w_spawned w.
Proof.
  intros Hloc.
  unfold Converter.convert, bind.
  destruct (Converter.expand_resolve input w) as [[e0|ip] w1] eqn:Her;
    apply expand_resolve_inv in Her; subst w1; [reflexivity|].
  pose proof (exists_world ip w) as Hw.
  destruct (PathIO.exists_ ip w) as [[e0|b] w1]; cbn in Hw; subst w1;
    [reflexivity|].
  destruct b; simpl; [|reflexivity].
  destruct (truthy output_file), (truthy output_dir);
    try reflexivity; unfold bind; rewrite Hloc; reflexivity.
Qed.

(** C7, as amended: in a call of [convert] in which the locator fails,
    no process is spawned, and when the input exists and the output
    arguments do not conflict, [convert] fails with the error of the
    locator, unchanged, and leaves the world untouched.  That error is
    [LibreOfficeNotFoundError] when the override is omitted or expands
    and resolves to something that is no regular file, and [PATH] has no
    [soffice]. *)
Theorem unresolved_executable_reported (run : runner) (input : path_like)
    (output_file output_dir soffice_path : option path_like)
    (timeout : option Q) (extra_args : option (list string)) (w : World) :
  (forall e,
      Converter.find_soffice (Converter.soffice_candidate soffice_path) w
      = (inl e, w) ->
      w_spawned (snd (Converter.convert run input output_file output_dir
                                        soffice_path timeout extra_args w))
      = w_spawned w
      /\ (forall ip,
            Converter.expand_resolve input w = (inr ip, w) ->
            Fs.exists_ (w_fs w) (PathIO.locate w ip) = true ->
            truthy output_file = None \/ truthy output_dir = None ->
            Converter.convert run input output_file output_dir soffice_path
                              timeout extra_args w
            = (inl e, w)))
  /\ ((forall c, Converter.soffice_candidate soffice_path = Some c ->
                 str_truthy c = true ->
                 exists p, Converter.expand_resolve (PStr c) w = (inr p, w)
                           /\ PathIO.is_file p w = (inr false, w)) ->
      Shutil.search w "soffice" (w_PATH w) = None ->
      Converter.find_soffice (Converter.soffice_candidate soffice_path) w
      = (inl (LibreOfficeNotFoundError Converter.not_found_message), w)).
Proof.
  split.
  - intros e Hloc. split.
    + eapply convert_without_locator_spawns_nothing; exact Hloc.
    + intros ip Hres Hex Hone.
      eapply convert_propagates_locator_error; eassumption.
  - intros Hover Hpath.
    pose proof (search_PATH_not_found w Hpath) as Hs.
    unfold Converter.find_soffice.
    destruct (Converter.soffice_candidate soffice_path) as [c|]; [|exact Hs].
    destruct (str_truthy c) eqn:Hc; [|exact Hs].
    destruct (Hover c eq_refl Hc) as (p & Her & Hnf).
    unfold bind. rewrite Her, Hnf. exact Hs.
Qed.

Lemma unresolved_executable_reported_witness :
  Converter.find_soffice
    (Converter.soffice_candidate (Some (PStr "/opt/soffice"))) Demo.bare_world
  = (inl (LibreOfficeNotFoundError Converter.not_found_message),
     Demo.bare_world)
  /\ Converter.convert Demo.fails (PStr "slides.pptx") None None
                       (Some (PStr "/opt/soffice")) None None Demo.bare_world
     = (inl (LibreOfficeNotFoundError Converter.not_found_message),
        Demo.bare_world).
Proof.
  pose proof (unresolved_executable_reported Demo.fails
                (PStr "slides.pptx") None None (Some (PStr "/opt/soffice"))
                None None Demo.bare_world) as [Hfails Hwhich].
  assert (Hloc : Converter.find_soffice
                   (Converter.soffice_candidate (Some (PStr "/opt/soffice")))
                   Demo.bare_world
                 = (inl (LibreOfficeNotFoundError Converter.not_found_message),
                    Demo.bare_world)).
  { apply Hwhich.
    - intros c Hc _. injection Hc as <-.
      exists (mkPath true ["opt"; "soffice"]). split; vm_compute; reflexivity.
    - vm_compute; reflexivity. }
  split; [exact Hloc|].
  apply (proj2 (Hfails _ Hloc) (mkPath true ["d"; "slides.pptx"])).
  - vm_compute; reflexivity.
  - vm_compute; reflexivity.
  - left; reflexivity.
Defined.

(** C7 as it stands fails, in two ways.  With a missing input and no
    converter the locator would raise [LibreOfficeNotFoundError], yet
    [convert] raises the plain [FileNotFoundError] of its first guard.
    And with the override [~ghost/soffice], which cannot be expanded,
    and nothing on [PATH], [convert] raises the [RuntimeError] of
    [expanduser]. *)
Lemma unresolved_executable_not_always_reported :
  (Converter.find_soffice (Converter.soffice_candidate None) Demo.bare_world
   = (inl (LibreOfficeNotFoundError Converter.not_found_message),
      Demo.bare_world)
   /\ Converter.convert Demo.fails (PStr "missing.pptx") None None None
                        None None Demo.bare_world
      = (inl (FileNotFoundError "Input file does not exist: /d/missing.pptx"),
         Demo.bare_world))
  /\ (Shutil.search Demo.bare_world "soffice" (w_PATH Demo.bare_world) = None
      /\ Fs.exists_ (w_fs Demo.bare_world) ["d"; "~ghost"; "soffice"] = false
      /\ Converter.convert Demo.fails (PStr "slides.pptx") None None
                           (Some (PStr "~ghost/soffice")) None None
                           Demo.bare_world
         = (inl (RuntimeError "Could not determine home directory."),
            Demo.bare_world)).
Proof. repeat split; vm_compute; reflexivity. Qed.

(* ------------------------------------------------------------------ *)
(** ** The file system seen through the path walk *)

Lemma entry_insert (fs : Fs.t) (p : list string) (v : Fs.node) :
  p <> [] -> Fs.entry (<[ p := v ]> fs) p = Some v.
Proof.
  intros Hp. destruct p as [|c p']; [contradiction|].
  cbn [Fs.entry]. apply lookup_insert_eq.
Qed.

Lemma entry_insert_ne (fs : Fs.t) (p q : list string) (v : Fs.node) :
  p <> q -> Fs.entry (<[ p := v ]> fs) q = Fs.entry fs q.
Proof.
  intros Hpq. destruct q as [|c q']; [reflexivity|].
  cbn [Fs.entry]. apply lookup_insert_ne. exact Hpq.
Qed.

Lemma entry_delete (fs : Fs.t) (p : list string) :
  p <> [] -> Fs.entry (delete p fs) p = None.
Proof.
  intros Hp. destruct p as [|c p']; [contradiction|].
  cbn [Fs.entry]. apply lookup_delete_eq.
Qed.

Lemma entry_delete_ne (fs : Fs.t) (p q : list string) :
  p <> q -> Fs.entry (delete p fs) q = Fs.entry fs q.
Proof.
  intros Hpq. destruct q as [|c q']; [reflexivity|].
  cbn [Fs.entry]. apply lookup_delete_ne. exact Hpq.
Qed.

(** The walk finds [v] exactly when no name is too long, every place
    passed on the way is a directory, and [v] is stored at the end. *)
Lemma walk_Some (fs : Fs.t) (todo : list string) :
  forall (done : list string) (v : Fs.node),
    Fs.walk fs done todo = inr (Some v)
    <-> Forall (fun c => Fs.name_too_long c = false) todo
        /\ (forall t1 t2, todo = (t1 ++ t2)%list -> t2 <> [] ->
              Fs.entry fs (done ++ t1)%list = Some Fs.Dir)
        /\ Fs.entry fs (done ++ todo)%list = Some v.
Proof.
  induction todo as [|c rest IH]; intros done v; cbn [Fs.walk].
  - rewrite app_nil_r. split.
    + intros [= H]. split; [constructor|]. split; [|exact H].
      intros t1 t2 Heq Hne. symmetry in Heq.
      apply app_eq_nil in Heq as [_ ->]. contradiction.
    + intros (_ & _ & H). rewrite H. reflexivity.
  - split.
    + destruct (Fs.entry fs done) as [[content x|]|] eqn:Hdone;
        try discriminate.
      destruct (Fs.name_too_long c) eqn:Hc; [discriminate|].
      intros Hw. apply IH in Hw as (Hshort & Hdirs & Hend).
      split; [constructor; assumption|]. split.
      * intros [|c' t1] t2 Heq Hne.
        -- rewrite app_nil_r. exact Hdone.
        -- cbn [app] in Heq. injection Heq as <- Hrest.
           specialize (Hdirs t1 t2 Hrest Hne).
           rewrite <- app_assoc in Hdirs. exact Hdirs.
      * rewrite <- app_assoc in Hend. exact Hend.
    + intros (Hshort & Hdirs & Hend).
      apply Forall_cons in Hshort as [Hc Hshort].
      pose proof (Hdirs [] (c :: rest) eq_refl) as Hdone.
      rewrite app_nil_r in Hdone. rewrite Hdone by discriminate.
      rewrite Hc. apply IH. split; [exact Hshort|]. split.
      * intros t1 t2 Heq Hne. rewrite <- app_assoc.
        apply (Hdirs (c :: t1) t2); [cbn [app]; rewrite Heq; reflexivity|exact Hne].
      * rewrite <- app_assoc. exact Hend.
Qed.

(** One more name after a walk that ended in a directory. *)
Lemma walk_snoc (fs : Fs.t) (todo : list string) :
  forall (done : list string) (c : string),
    Fs.walk fs done todo = inr (Some Fs.Dir) ->
    Fs.walk fs done (todo ++ [c])%list
    = if Fs.name_too_long c
      then inl (Fs.ENAMETOOLONG (done ++ todo ++ [c])%list)
      else inr (Fs.entry fs (done ++ todo ++ [c])%list).
Proof.
  induction todo as [|c' rest IH]; intros done c; cbn [Fs.walk app].
  - intros [= ->]. destruct (Fs.name_too_long c); reflexivity.
  - destruct (Fs.entry fs done) as [[content x|]|]; try discriminate.
    destruct (Fs.name_too_long c'); [discriminate|].
    intros Hw. rewrite (IH _ c Hw). rewrite <- !app_assoc. reflexivity.
Qed.

Lemma stat_inr (fs : Fs.t) (p : list string) (found : option Fs.node) :
  Fs.stat fs p = inr found ->
  Fs.has_nul p = false /\ Fs.path_too_long p = false
  /\ Fs.walk fs [] p = inr found.
Proof.
  unfold Fs.stat. destruct (Fs.has_nul p); [discriminate|].
  destruct (Fs.path_too_long p); [discriminate|]. auto.
Qed.

Lemma lookup_Some (fs : Fs.t) (p : list string) (v : Fs.node) :
  Fs.lookup fs p = Some v
  <-> Fs.has_nul p = false /\ Fs.path_too_long p = false
      /\ Fs.walk fs [] p = inr (Some v).
Proof.
  unfold Fs.lookup, Fs.stat.
  destruct (Fs.has_nul p); [split; [discriminate|intros (H & _); discriminate]|].
  destruct (Fs.path_too_long p);
    [split; [discriminate|intros (_ & H & _); discriminate]|].
  destruct (Fs.walk fs [] p) as [e|o].
  - split; [discriminate|intros (_ & _ & H); discriminate].
  - split; [intros ->; auto|intros (_ & _ & [= ->]); reflexivity].
Qed.

Lemma lookup_stat (fs : Fs.t) (p : list string) (v : Fs.node) :
  Fs.lookup fs p = Some v -> Fs.stat fs p = inr (Some v).
Proof.
  unfold Fs.lookup. destruct (Fs.stat fs p) as [e|o]; [discriminate|].
  intros ->. reflexivity.
Qed.

(** What is seen at [p] is stored at [p]. *)
Lemma lookup_entry (fs : Fs.t) (p : list string) (v : Fs.node) :
  Fs.lookup fs p = Some v -> Fs.entry fs p = Some v.
Proof.
  intros H. apply lookup_Some in H as (_ & _ & H).
  apply walk_Some in H as (_ & _ & H). exact H.
Qed.

(** What can be seen stays in sight when no entry is lost. *)
Lemma lookup_mono (fs fs' : Fs.t) :
  (forall q n, Fs.entry fs q = Some n -> Fs.entry fs' q = Some n) ->
  forall k v, Fs.lookup fs k = Some v -> Fs.lookup fs' k = Some v.
Proof.
  intros Hkeep k v H. apply lookup_Some in H as (Hnul & Hlen & H).
  apply lookup_Some. split; [exact Hnul|]. split; [exact Hlen|].
  apply walk_Some in H as (Hshort & Hdirs & Hend). apply walk_Some.
  split; [exact Hshort|]. split.
  - intros t1 t2 Heq Hne. apply Hkeep, (Hdirs t1 t2 Heq Hne).
  - apply Hkeep, Hend.
Qed.

(** *** [mkdir] *)

(** [mkdirs] loses no entry, whether it succeeds or not, and when it
    succeeds below a directory the walk down its way ends in a
    directory. *)
Lemma mkdirs_spec (todo : list string) :
  forall (fs : Fs.t) (done : list string) (r : exn + unit) (fs' : Fs.t),
    Fs.mkdirs fs done todo = (r, fs') ->
    (forall q n, Fs.entry fs q = Some n -> Fs.entry fs' q = Some n)
    /\ (r = inr tt -> Fs.entry fs done = Some Fs.Dir ->
        Fs.walk fs' done todo = inr (Some Fs.Dir)).
Proof.
  induction todo as [|c rest IH]; intros fs done r fs'; cbn [Fs.mkdirs Fs.walk].
  - intros [= <- <-]. split; [auto|]. intros _ ->. reflexivity.
  - destruct (Fs.name_too_long c) eqn:Hc.
    { intros [= <- <-]. split; [auto|discriminate]. }
    assert (Hstep : forall fs0,
      Fs.entry fs0 (done ++ [c])%list = Some Fs.Dir ->
      (forall q n, Fs.entry fs q = Some n -> Fs.entry fs0 q = Some n) ->
      Fs.mkdirs fs0 (done ++ [c])%list rest = (r, fs') ->
      (forall q n, Fs.entry fs q = Some n -> Fs.entry fs' q = Some n)
      /\ (r = inr tt -> Fs.entry fs done = Some Fs.Dir ->
          match Fs.entry fs' done with
          | Some Fs.Dir => Fs.walk fs' (done ++ [c])%list rest
          | _ => inr None
          end = inr (Some Fs.Dir))).
    { intros fs0 Hhere Hkeep Hrec.
      destruct (IH _ _ _ _ Hrec) as [Hkeep' Hwalk]. split.
      - intros q n Hq. apply Hkeep', Hkeep, Hq.
      - intros Hr Hdone. rewrite (Hkeep' _ _ (Hkeep _ _ Hdone)).
        apply Hwalk; assumption. }
    destruct (Fs.entry fs (done ++ [c])%list) as [[content x|]|] eqn:Hhere.
    + intros [= <- <-]. split; [auto|]. destruct rest; discriminate.
    + apply Hstep; [exact Hhere|auto].
    + apply Hstep.
      * apply entry_insert. destruct done; discriminate.
      * intros q n Hq. rewrite entry_insert_ne; [exact Hq|].
        intros <-. rewrite Hhere in Hq. discriminate Hq.
Qed.

(** [mkdir -p] loses nothing that could be seen, and leaves a directory
    when it succeeds. *)
Lemma mkdir_p_spec (fs fs' : Fs.t) (p : list string) (r : exn + unit) :
  Fs.mkdir_p fs p = (r, fs') ->
  (forall k v, Fs.lookup fs k = Some v -> Fs.lookup fs' k = Some v)
  /\ (r = inr tt -> Fs.is_dir fs' p = true).
Proof.
  unfold Fs.mkdir_p.
  destruct (Fs.has_nul p) eqn:Hnul;
    [intros [= <- <-]; split; [auto|discriminate]|].
  destruct (Fs.path_too_long p) eqn:Hlen;
    [intros [= <- <-]; split; [auto|discriminate]|].
  intros Hmk. destruct (mkdirs_spec p fs [] r fs' Hmk) as [Hkeep Hwalk].
  split; [apply lookup_mono; exact Hkeep|].
  intros Hr. unfold Fs.is_dir.
  assert (Hl : Fs.lookup fs' p = Some Fs.Dir).
  { apply lookup_Some. split; [exact Hnul|]. split; [exact Hlen|].
    apply Hwalk; [exact Hr|reflexivity]. }
  rewrite Hl. reflexivity.
Qed.

(** A regular file where the last directory should go. *)
Lemma mkdirs_leaf_file (fs : Fs.t) (content : string) (x : bool)
    (todo : list string) :
  forall done : list string,
    todo <> [] ->
    Fs.walk fs done todo = inr (Some (Fs.File content x)) ->
    exists msg, Fs.mkdirs fs done todo = (inl (FileExistsError msg), fs).
Proof.
  induction todo as [|c rest IH]; intros done Hne; [contradiction|].
  cbn [Fs.walk Fs.mkdirs].
  destruct (Fs.entry fs done) as [[c0 x0|]|]; try discriminate.
  destruct (Fs.name_too_long c); [discriminate|].
  destruct rest as [|c' rest'].
  - cbn [Fs.walk]. intros [= ->]. eexists. reflexivity.
  - intros Hw.
    assert (Hhere : Fs.entry fs (done ++ [c])%list = Some Fs.Dir).
    { cbn [Fs.walk] in Hw.
      destruct (Fs.entry fs (done ++ [c])%list) as [[c1 x1|]|];
        try discriminate Hw. reflexivity. }
    rewrite Hhere. apply IH; [discriminate|exact Hw].
Qed.

Lemma mkdir_p_leaf_file (fs : Fs.t) (p : list string)
    (content : string) (x : bool) :
  Fs.lookup fs p = Some (Fs.File content x) ->
  exists msg, Fs.mkdir_p fs p = (inl (FileExistsError msg), fs).
Proof.
  intros H. apply lookup_Some in H as (Hnul & Hlen & Hw).
  unfold Fs.mkdir_p. rewrite Hnul, Hlen.
  apply (mkdirs_leaf_file fs content x); [|exact Hw].
  intros ->. cbn in Hw. discriminate Hw.
Qed.

(** *** [os.replace] *)

Lemma snoc_split (t1 t2 p : list string) (c : string) :
  (t1 ++ t2)%list = (p ++ [c])%list -> t2 <> [] ->
  exists t2', t2 = (t2' ++ [c])%list /\ p = (t1 ++ t2')%list.
Proof.
  intros Heq Hne.
  destruct (exists_last Hne) as (t2' & c' & ->).
  rewrite app_assoc in Heq. apply app_inj_tail in Heq as [<- <-].
  exists t2'. auto.
Qed.

(** The directories on the way to [dst], as [replace] has checked
    them. *)
Lemma way_to_dst (fs : Fs.t) (dst : list string) (there : option Fs.node) :
  dst <> [] ->
  Fs.stat fs dst = inr there ->
  Fs.lookup fs (removelast dst) = Some Fs.Dir ->
  Fs.has_nul dst = false /\ Fs.path_too_long dst = false
  /\ Forall (fun c => Fs.name_too_long c = false) dst
  /\ (forall t1 t2, dst = (t1 ++ t2)%list -> t2 <> [] ->
        Fs.entry fs t1 = Some Fs.Dir)
  /\ there = Fs.entry fs dst.
Proof.
  intros Hne Hstat Hparent.
  apply stat_inr in Hstat as (Hnul & Hlen & Hw).
  apply lookup_Some in Hparent as (_ & _ & Hp).
  split; [exact Hnul|]. split; [exact Hlen|].
  rewrite (app_removelast_last "" Hne) in Hw.
  rewrite (walk_snoc _ _ _ _ Hp) in Hw. cbn [app] in Hw.
  rewrite <- (app_removelast_last "" Hne) in Hw.
  destruct (Fs.name_too_long (List.last dst "")) eqn:Hc; [discriminate|].
  injection Hw as <-.
  apply walk_Some in Hp as (Hshort & Hdirs & Hend). cbn [app] in Hdirs, Hend.
  split; [|split; [|reflexivity]].
  - rewrite (app_removelast_last "" Hne). apply Forall_app. split; [exact Hshort|].
    constructor; [exact Hc|constructor].
  - intros t1 t2 Heq Ht2.
    rewrite (app_removelast_last "" Hne) in Heq. symmetry in Heq.
    destruct (snoc_split _ _ _ _ Heq Ht2) as (t2' & -> & Hp').
    destruct t2' as [|c' t2'].
    + rewrite app_nil_r in Hp'. rewrite <- Hp'. exact Hend.
    + apply (Hdirs t1 (c' :: t2')); [exact Hp'|discriminate].
Qed.

Lemma is_prefix_app (src t1 t2 : list string) :
  Fs.is_prefix src t1 = true -> Fs.is_prefix src (t1 ++ t2)%list = true.
Proof.
  unfold Fs.is_prefix. intros H. apply bool_decide_eq_true in H.
  apply bool_decide_eq_true.
  assert (Hlen : (length src <= length t1)%nat).
  { rewrite <- H at 1. rewrite length_take. lia. }
  rewrite take_app_le by exact Hlen. exact H.
Qed.

(** Outside the two subtrees a move leaves every entry alone. *)
Lemma move_tree_outside (fs : Fs.t) (src dst q : list string) (v : Fs.node) :
  Fs.is_prefix src q = false -> Fs.is_prefix dst q = false ->
  fs !! q = Some v -> Fs.move_tree fs src dst !! q = Some v.
Proof.
  intros Hsrc Hdst Hq. unfold Fs.move_tree.
  assert (Hqd : q <> dst).
  { intros ->. unfold Fs.is_prefix in Hdst.
    rewrite firstn_all in Hdst. rewrite bool_decide_eq_true_2 in Hdst by reflexivity.
    discriminate. }
  apply elem_of_list_to_map_1'.
  - intros y Hy. apply list_elem_of_In, in_map_iff in Hy.
    destruct Hy as ([k w] & Heq & Hin). cbn in Heq.
    injection Heq as Hk <-.
    apply list_elem_of_In, elem_of_map_to_list, lookup_delete_Some in Hin.
    destruct Hin as [Hkd Hkv].
    unfold Fs.rekey in Hk. destruct (Fs.is_prefix src k) eqn:Hp.
    + exfalso. subst q. unfold Fs.is_prefix in Hdst.
      rewrite take_app_length in Hdst.
      rewrite bool_decide_eq_true_2 in Hdst by reflexivity. discriminate.
    + subst k.
      assert (Hv : Some w = Some v) by (rewrite <- Hkv; exact Hq).
      injection Hv as ->. reflexivity.
  - apply list_elem_of_In, in_map_iff. exists (q, v). split.
    + cbn. unfold Fs.rekey. rewrite Hsrc. reflexivity.
    + apply list_elem_of_In, elem_of_map_to_list.
      apply lookup_delete_Some. split; [|exact Hq].
      intros Heq. apply Hqd. symmetry. exact Heq.
Qed.

Lemma move_tree_dst (fs : Fs.t) (src dst : list string) :
  src <> dst -> fs !! src = Some Fs.Dir ->
  Fs.move_tree fs src dst !! dst = Some Fs.Dir.
Proof.
  intros Hne Hsrc. unfold Fs.move_tree.
  apply elem_of_list_to_map_1'.
  - intros y Hy. apply list_elem_of_In, in_map_iff in Hy.
    destruct Hy as ([k v] & Heq & Hin). cbn in Heq.
    injection Heq as Hk <-.
    apply list_elem_of_In, elem_of_map_to_list, lookup_delete_Some in Hin.
    destruct Hin as [Hkd Hkv].
    unfold Fs.rekey in Hk. destruct (Fs.is_prefix src k) eqn:Hp.
    + unfold Fs.is_prefix in Hp. apply bool_decide_eq_true in Hp.
      assert (Hdrop : drop (length src) k = []).
      { apply (app_inv_head dst). rewrite app_nil_r. exact Hk. }
      assert (Hks : k = src).
      { rewrite <- (firstn_skipn (length src) k), Hdrop, app_nil_r. exact Hp. }
      subst k.
      assert (Hv : Some v = Some Fs.Dir) by (rewrite <- Hkv; exact Hsrc).
      injection Hv as ->. reflexivity.
    + subst k. contradiction.
  - apply list_elem_of_In, in_map_iff. exists (src, Fs.Dir). split.
    + cbn. unfold Fs.rekey, Fs.is_prefix.
      rewrite firstn_all, bool_decide_eq_true_2 by reflexivity.
      rewrite skipn_all, app_nil_r. reflexivity.
    + apply list_elem_of_In, elem_of_map_to_list.
      apply lookup_delete_Some. split; [|exact Hsrc].
      intros Heq. apply Hne. symmetry. exact Heq.
Qed.

(** Moving a regular file to a place that can take it. *)
Lemma replace_file (fs : Fs.t) (src dst : list string)
    (content : string) (x : bool) (there : option Fs.node) :
  Fs.lookup fs src = Some (Fs.File content x) ->
  Fs.stat fs dst = inr there ->
  there <> Some Fs.Dir ->
  Fs.lookup fs (removelast dst) = Some Fs.Dir ->
  src <> dst ->
  let fs' := <[ dst := Fs.File content x ]> (delete src fs) in
  Fs.replace fs src dst = inr fs'
  /\ Fs.lookup fs' dst = Some (Fs.File content x)
  /\ Fs.lookup fs' src = None.
Proof.
  intros Hsrc Hstat Hnodir Hparent Hne fs'.
  assert (Hd : dst <> []).
  { intros ->. cbn in Hstat. injection Hstat as <-. contradiction. }
  assert (Hs : src <> []).
  { intros ->. cbn in Hsrc. discriminate Hsrc. }
  destruct (way_to_dst fs dst there Hd Hstat Hparent)
    as (Hnul & Hlen & Hshort & Hdirs & Hthere).
  split; [|split].
  - unfold Fs.replace. rewrite (lookup_stat _ _ _ Hsrc), Hstat, Hparent.
    rewrite (bool_decide_eq_false_2 _ Hne).
    destruct there as [[c' x'|]|]; try reflexivity. contradiction.
  - apply lookup_Some. split; [exact Hnul|]. split; [exact Hlen|].
    apply walk_Some. split; [exact Hshort|]. cbn [app]. split.
    + intros t1 t2 Heq Ht2. subst fs'.
      assert (Ht1 : Fs.entry fs t1 = Some Fs.Dir) by exact (Hdirs t1 t2 Heq Ht2).
      rewrite entry_insert_ne.
      * rewrite entry_delete_ne; [exact Ht1|].
        intros <-. apply lookup_entry in Hsrc. rewrite Hsrc in Ht1.
        discriminate Ht1.
      * intros ->. apply Ht2.
        apply (app_inv_head t1). rewrite app_nil_r. symmetry. exact Heq.
    + apply entry_insert. exact Hd.
  - destruct (Fs.lookup fs' src) as [v|] eqn:Hl; [|reflexivity].
    apply lookup_entry in Hl. subst fs'.
    rewrite entry_insert_ne in Hl by (intros Heq; apply Hne; symmetry; exact Heq).
    rewrite entry_delete in Hl by exact Hs. discriminate Hl.
Qed.

(** After a successful [os.replace] there is something at the
    destination. *)
Lemma replace_dst_exists (fs fs' : Fs.t) (src dst : list string) :
  Fs.replace fs src dst = inr fs' -> Fs.exists_ fs' dst = true.
Proof.
  unfold Fs.replace.
  destruct (Fs.stat fs src) as [e|[s|]] eqn:Hs; try discriminate.
  destruct (Fs.stat fs dst) as [e|there] eqn:Hstat; [discriminate|].
  destruct (Fs.lookup fs (removelast dst)) as [[c0 x0|]|] eqn:Hparent;
    [discriminate| |discriminate].
  assert (Hsrc : Fs.lookup fs src = Some s).
  { unfold Fs.lookup. rewrite Hs. reflexivity. }
  destruct (bool_decide_reflect (src = dst)) as [->|Hne].
  - intros [= <-]. unfold Fs.exists_. rewrite Hsrc. reflexivity.
  - destruct s as [c x|].
    + intros Hrep.
      assert (Hnodir : there <> Some Fs.Dir).
      { intros ->. discriminate Hrep. }
      destruct (replace_file fs src dst c x there Hsrc Hstat Hnodir Hparent Hne)
        as (_ & Hl & _).
      assert (Hfs' : fs' = <[ dst := Fs.File c x ]> (delete src fs)).
      { destruct there as [[c' x'|]|]; try contradiction;
          injection Hrep as <-; reflexivity. }
      subst fs'. unfold Fs.exists_. rewrite Hl. reflexivity.
    + intros Hrep.
      assert (Hmoved : Fs.is_prefix src dst = false
                       /\ fs' = Fs.move_tree fs src dst).
      { destruct there as [[c' x'|]|]; try discriminate Hrep;
          (destruct (Fs.is_prefix src dst); [discriminate Hrep|]);
          (destruct (Fs.has_children fs dst); [discriminate Hrep|]);
          injection Hrep as <-; auto. }
      destruct Hmoved as [Hpre ->].
      destruct (decide (dst = [])) as [->|Hd];
        [reflexivity|].
      destruct (way_to_dst fs dst there Hd Hstat Hparent)
        as (Hnul & Hlen & Hshort & Hdirs & Hthere).
      assert (Hs0 : src <> []).
      { intros ->. unfold Fs.is_prefix in Hpre. cbn in Hpre.
        rewrite bool_decide_eq_true_2 in Hpre by reflexivity. discriminate. }
      assert (Hl : Fs.lookup (Fs.move_tree fs src dst) dst = Some Fs.Dir).
      { apply lookup_Some. split; [exact Hnul|]. split; [exact Hlen|].
        apply walk_Some. split; [exact Hshort|]. cbn [app]. split.
        - intros t1 t2 Heq Ht2.
          assert (Ht1 : Fs.entry fs t1 = Some Fs.Dir)
            by exact (Hdirs t1 t2 Heq Ht2).
          destruct t1 as [|c1 t1']; [reflexivity|].
          cbn [Fs.entry] in *. apply move_tree_outside; [| |exact Ht1].
          + destruct (Fs.is_prefix src (c1 :: t1')) eqn:Hp; [|reflexivity].
            apply (is_prefix_app _ _ t2) in Hp. rewrite <- Heq in Hp.
            rewrite Hp in Hpre. discriminate.
          + unfold Fs.is_prefix. apply bool_decide_eq_false_2.
            intros Htake.
            assert (Hlen' : (length dst <= length (c1 :: t1'))%nat).
            { rewrite <- Htake at 1. rewrite length_take. lia. }
            rewrite Heq, length_app in Hlen'.
            destruct t2; [contradiction|]. cbn [length] in Hlen'. lia.
        - destruct dst as [|c dst']; [contradiction|]. cbn [Fs.entry].
          apply move_tree_dst; [exact Hne|].
          apply lookup_entry in Hsrc.
          destruct src as [|c1 src']; [contradiction|exact Hsrc]. }
      unfold Fs.exists_. rewrite Hl. reflexivity.
Qed.
(** ** The command line front end *)

(** C9: when [convert] raises, whatever the exception, [main] leaves
    through [parser.error]: exit status 2, the message on the standard
    error, nothing on the standard output. *)
Theorem main_fails_when_convert_raises
    (parse_args : list string -> Cli.parse_result) (usage : string)
    (run : runner) (argv : list string) (args : Cli.Namespace)
    (w w' : World) (exc : exn) :
  parse_args argv = Cli.Parsed args ->
  Converter.convert run
    (PPath (Cli.ns_input args))
    (option_map PPath (Cli.ns_output args))
    (option_map PPath (Cli.ns_outdir args))
    (option_map PPath (Cli.ns_soffice args))
    (Cli.ns_timeout args) (Cli.ns_extra_args args) w = (inl exc, w') ->
  exists t console,
    Cli.main parse_args usage run argv w = ((t, console), w')
    /\ t = Cli.SystemExit 2
    /\ Cli.exit_code t <> 0%Z
    /\ Cli.con_stdout console = ""
    /\ Cli.con_stderr console
       = usage ++ "ppt2pdf: error: " ++ exn_str exc ++ nl.
Proof.
  intros Hparse Hconv.
  unfold Cli.main. rewrite Hparse, Hconv.
  exists (Cli.SystemExit 2),
         (Cli.mkConsole "" (usage ++ "ppt2pdf: error: " ++ exn_str exc ++ nl)).
  unfold Cli.parser_error.
  destruct (is_FileNotFoundError exc || is_LibreOfficeNotFoundError exc
            || is_ConversionError exc);
    repeat split; simpl; discriminate.
Qed.

Lemma main_fails_when_convert_raises_witness :
  exists t console,
    Cli.main Demo.parse_one "usage: ppt2pdf input" Demo.fails
             ["slides.pptx"] Demo.world
    = ((t, console), log_spawn
         ["/d/soffice"; "--headless"; "--nologo"; "--nofirststartwizard";
          "--convert-to"; "pdf"; "--outdir"; "/d"; "/d/slides.pptx"] Demo.world)
    /\ t = Cli.SystemExit 2
    /\ Cli.exit_code t <> 0%Z
    /\ Cli.con_stdout console = ""
    /\ Cli.con_stderr console
       = "usage: ppt2pdf input" ++ "ppt2pdf: error: "
         ++ exn_str (ConversionError
              (Converter.failed_message
                 ["/d/soffice"; "--headless"; "--nologo"; "--nofirststartwizard";
                  "--convert-to"; "pdf"; "--outdir"; "/d"; "/d/slides.pptx"]
                 "" "boom")) ++ nl.
Proof.
  apply (main_fails_when_convert_raises Demo.parse_one "usage: ppt2pdf input"
           Demo.fails ["slides.pptx"]
           (Cli.mkNamespace (Pathlib.of_str "slides.pptx") None None None None None)
           Demo.world);
    vm_compute; reflexivity.
Defined.


(** ** Running the converter *)

Lemma append_assoc (a b c : string) : (a ++ b) ++ c = a ++ (b ++ c).
Proof.
  induction a as [|x a IH]; [reflexivity|].
  change (String x ((a ++ b) ++ c) = String x (a ++ (b ++ c))).
  rewrite IH. reflexivity.
Qed.

Lemma append_nil_r (a : string) : a ++ "" = a.
Proof.
  induction a as [|x a IH]; [reflexivity|].
  change (String x (a ++ "") = String x a).
  rewrite IH. reflexivity.
Qed.

(** The three parts of the diagnostic are to be found in it. *)
Lemma failed_message_contains (command : list string) (out err : string) :
  Str.contains (Converter.failed_message command out err) (Str.join " " command)
  /\ Str.contains (Converter.failed_message command out err) out
  /\ Str.contains (Converter.failed_message command out err) err.
Proof.
  unfold Converter.failed_message, Str.contains.
  set (head := "LibreOffice failed to convert the presentation.").
  set (cmdline := Str.join " " command).
  repeat split.
  - exists (head ++ nl ++ "Command: "), (nl ++ "Stdout: " ++ out ++ nl ++ "Stderr: " ++ err).
    rewrite !append_assoc. reflexivity.
  - exists (head ++ nl ++ "Command: " ++ cmdline ++ nl ++ "Stdout: "),
           (nl ++ "Stderr: " ++ err).
    rewrite !append_assoc. reflexivity.
  - exists (head ++ nl ++ "Command: " ++ cmdline ++ nl ++ "Stdout: " ++ out
            ++ nl ++ "Stderr: "), "".
    rewrite append_nil_r, !append_assoc. reflexivity.
Qed.

(** *** What changes the world, and how *)

Lemma only_fs_same {A} (c : M A) :
  (forall w, snd (c w) = w) -> only_fs c.
Proof.
  intros Hc w r w' H. specialize (Hc w). rewrite H in Hc. cbn in Hc.
  subst w'. symmetry. apply set_fs_same.
Qed.

Lemma only_fs_ret {A} (a : A) : only_fs (ret a).
Proof. apply only_fs_same. reflexivity. Qed.

Lemma only_fs_raise {A} (e : exn) : only_fs (@raise A e).
Proof. apply only_fs_same. reflexivity. Qed.

Lemma only_fs_bind {A B} (c : M A) (k : A -> M B) :
  only_fs c -> (forall a, only_fs (k a)) -> only_fs (bind c k).
Proof.
  intros Hc Hk w r w'. unfold bind.
  destruct (c w) as [[e|a] w1] eqn:Hcw.
  - intros [= <- <-]. exact (Hc _ _ _ Hcw).
  - intros Hka. rewrite (Hk a _ _ _ Hka), (Hc _ _ _ Hcw). reflexivity.
Qed.

Lemma only_fs_expand_resolve (x : path_like) :
  only_fs (Converter.expand_resolve x).
Proof. apply only_fs_same, expand_resolve_world. Qed.

Lemma only_fs_resolve (p : Path) : only_fs (PathIO.resolve p).
Proof. apply only_fs_same, resolve_world. Qed.

Lemma only_fs_exists (p : Path) : only_fs (PathIO.exists_ p).
Proof. apply only_fs_same, exists_world. Qed.

Lemma only_fs_find_soffice (candidate : option string) :
  only_fs (Converter.find_soffice candidate).
Proof. apply only_fs_same, find_soffice_world. Qed.

Lemma only_fs_mkdir_parents (p : Path) : only_fs (PathIO.mkdir_parents p).
Proof.
  intros w r w'. unfold PathIO.mkdir_parents.
  destruct (Fs.mkdir_p _ _) as [r0 fs']. intros [= <- <-]. reflexivity.
Qed.

Lemma only_fs_replace (src dst : Path) : only_fs (PathIO.replace src dst).
Proof.
  intros w r w'. unfold PathIO.replace, lift_fs.
  destruct (Fs.replace _ _ _) as [e|fs']; intros [= <- <-];
    [symmetry; apply set_fs_same|reflexivity].
Qed.

(** Proves [only_fs] of a computation built from the steps above. *)
Ltac frame :=
  repeat first
    [ apply only_fs_ret | apply only_fs_raise
    | apply only_fs_expand_resolve | apply only_fs_resolve
    | apply only_fs_exists | apply only_fs_find_soffice
    | apply only_fs_mkdir_parents | apply only_fs_replace
    | apply only_fs_bind; [|intros ?; cbv beta]
    | match goal with
      | |- only_fs (if ?b then _ else _) => destruct b
      | |- only_fs (match ?x with _ => _ end) => destruct x
      end ].

(** [prepare] changes nothing but the file system, whether it succeeds
    or not. *)
Lemma prepare_frame (input : path_like)
    (output_file output_dir soffice_path : option path_like)
    (timeout : option Q) (extra_args : option (list string))
    (w w1 : World) (res : exn + Converter.Plan) :
  Converter.prepare input output_file output_dir soffice_path
                    timeout extra_args w = (res, w1) ->
  w1 = set_fs (w_fs w1) w.
Proof.
  revert w res w1.
  change (only_fs (Converter.prepare input output_file output_dir
                     soffice_path timeout extra_args)).
  unfold Converter.prepare. frame.
Qed.

(** The call of [subprocess.run] in [convert], with its two handlers:
    it logs one command whatever happens, and it returns only after a
    zero exit status with both streams decoded. *)
Lemma run_guarded_inv (run : runner) (command : list string)
    (timeout : option Q) (w1 w2 : World) (res : exn + CompletedProcess) :
  try_except (subprocess_run run command timeout)
    (fun exc =>
       match exc with
       | TimeoutExpired _ =>
           Some (raise (ConversionError
             "LibreOffice timed out while converting the presentation."))
       | CalledProcessError _ _ out err =>
           Some (raise (ConversionError
                          (Converter.failed_message command out err)))
       | _ => None
       end) w1 = (res, w2) ->
  w2 = log_spawn command (set_fs (snd (run command timeout w1)) w1)
  /\ (forall completed, res = inr completed ->
        exists out err out' err',
          fst (run command timeout w1) = Exited 0 out err
          /\ w_decode w1 out = Some out'
          /\ w_decode w1 err = Some err'
          /\ completed = mkCompleted (universal_newlines out')
                                     (universal_newlines err')).
Proof.
  unfold try_except, subprocess_run, translate_newlines, raise.
  destruct (run command timeout w1) as [outcome fs2]. cbn [fst snd].
  destruct outcome as [code out err| |e].
  - destruct (w_decode w1 out) as [out'|] eqn:Hout;
      [|intros [= <- <-]; split; [reflexivity|discriminate]].
    destruct (w_decode w1 err) as [err'|] eqn:Herr;
      [|intros [= <- <-]; split; [reflexivity|discriminate]].
    destruct (Z.eqb_spec code 0) as [->|_];
      [|intros [= <- <-]; split; [reflexivity|discriminate]].
    intros [= <- <-]. split; [reflexivity|].
    intros completed [= <-]. exists out, err, out', err'. auto.
  - intros [= <- <-]. split; [reflexivity|discriminate].
  - destruct e; intros [= <- <-]; split; reflexivity || discriminate.
Qed.

(** *** What [prepare] has done when it succeeds *)

Lemma mkdir_parents_inv (p : Path) (w w' : World) (r : exn + unit) :
  PathIO.mkdir_parents p w = (r, w') ->
  exists fs', Fs.mkdir_p (w_fs w) (PathIO.locate w p) = (r, fs')
              /\ w' = set_fs fs' w.
Proof.
  unfold PathIO.mkdir_parents.
  destruct (Fs.mkdir_p (w_fs w) (PathIO.locate w p)) as [r0 fs'].
  intros [= <- <-]. exists fs'. auto.
Qed.

(** Everything a successful [prepare] has established. *)
Lemma prepare_success_inv (input : path_like)
    (output_file output_dir soffice_path : option path_like)
    (timeout : option Q) (extra_args : option (list string))
    (w w1 : World) (plan : Converter.Plan) :
  Converter.prepare input output_file output_dir soffice_path
                    timeout extra_args w = (inr plan, w1) ->
  exists exe fs1,
    Converter.expand_resolve input w = (inr (Converter.pl_input plan), w)
    /\ Fs.exists_ (w_fs w) (PathIO.locate w (Converter.pl_input plan)) = true
    /\ Converter.find_soffice (Converter.soffice_candidate soffice_path) w
       = (inr exe, w)
    /\ Converter.pl_command plan
       = Converter._build_command
           (Converter.mkOptions exe timeout extra_args)
           (Converter.pl_input plan) (Converter.pl_target_dir plan)
    /\ match truthy output_file with
       | Some f =>
           truthy output_dir = None
           /\ Converter.expand_resolve f w = (inr (Converter.pl_output plan), w)
           /\ Converter.pl_target_dir plan
              = Pathlib.parent (Converter.pl_output plan)
       | None =>
           Converter.pl_output plan
           = Converter.pl_target_dir plan
             // (Pathlib.stem (Converter.pl_input plan) ++ ".pdf")
           /\ match truthy output_dir with
              | Some d => Converter.expand_resolve d w
                          = (inr (Converter.pl_target_dir plan), w)
              | None => Converter.pl_target_dir plan
                        = Pathlib.parent (Converter.pl_input plan)
              end
       end
    /\ Fs.mkdir_p (w_fs w) (PathIO.locate w (Converter.pl_target_dir plan))
       = (inr tt, fs1)
    /\ w1 = set_fs fs1 w.
Proof.
  unfold Converter.prepare, bind.
  destruct (Converter.expand_resolve input w) as [[e|ip] w0] eqn:Hres;
    [discriminate|].
  apply expand_resolve_inv in Hres as Hw0. subst w0.
  destruct (PathIO.exists_ ip w) as [[e|b] w0] eqn:Hex; [discriminate|].
  apply exists_inv in Hex as (-> & ->).
  destruct (Fs.exists_ (w_fs w) (PathIO.locate w ip)) eqn:Hex;
    cbn [negb]; [|discriminate].
  destruct (truthy output_file) as [f|] eqn:Hf;
    destruct (truthy output_dir) as [d|] eqn:Hd; try discriminate;
    unfold bind;
    (destruct (Converter.find_soffice _ w) as [[e|exe] w2] eqn:Hloc;
       [discriminate|]);
    apply find_soffice_inv in Hloc as Hw2; subst w2.
  - destruct (Converter.expand_resolve f w) as [[e|op] w3] eqn:Hop;
      [discriminate|].
    apply expand_resolve_inv in Hop as Hw3. subst w3.
    destruct (PathIO.mkdir_parents (Pathlib.parent op) w) as [r w4] eqn:Hmk.
    destruct (mkdir_parents_inv _ _ _ _ Hmk) as (fs1 & Hfs1 & ->).
    destruct r as [e|[]]; [discriminate|].
    unfold ret. intros [= <-]. exists exe, fs1. cbn. auto 10.
  - destruct (Converter.expand_resolve d w) as [[e|td] w3] eqn:Htd;
      [discriminate|].
    apply expand_resolve_inv in Htd as Hw3. subst w3.
    destruct (PathIO.mkdir_parents td w) as [r w4] eqn:Hmk.
    destruct (mkdir_parents_inv _ _ _ _ Hmk) as (fs1 & Hfs1 & ->).
    destruct r as [e|[]]; [discriminate|].
    unfold ret. intros [= <-]. exists exe, fs1. cbn. auto 10.
  - unfold ret.
    destruct (PathIO.mkdir_parents (Pathlib.parent ip) w) as [r w4] eqn:Hmk.
    destruct (mkdir_parents_inv _ _ _ _ Hmk) as (fs1 & Hfs1 & ->).
    destruct r as [e|[]]; [discriminate|].
    intros [= <-]. exists exe, fs1. cbn. auto 10.
Qed.

(** The first half of [convert] when no output file is asked for. *)
Lemma prepare_default (input : path_like)
    (output_file output_dir soffice_path : option path_like)
    (timeout : option Q) (extra_args : option (list string))
    (w : World) (ip exe wd : Path) (fs1 : Fs.t) :
  truthy output_file = None ->
  Converter.expand_resolve input w = (inr ip, w) ->
  Fs.exists_ (w_fs w) (PathIO.locate w ip) = true ->
  Converter.find_soffice (Converter.soffice_candidate soffice_path) w
  = (inr exe, w) ->
  match truthy output_dir with
  | Some d => Converter.expand_resolve d w = (inr wd, w)
  | None => wd = Pathlib.parent ip
  end ->
  Fs.mkdir_p (w_fs w) (PathIO.locate w wd) = (inr tt, fs1) ->
  Converter.prepare input output_file output_dir soffice_path
                    timeout extra_args w
  = (inr (Converter.mkPlan ip (wd // (Pathlib.stem ip ++ ".pdf")) wd
            (Converter._build_command
               (Converter.mkOptions exe timeout extra_args) ip wd)),
     set_fs fs1 w).
Proof.
  intros Hnone Hres Hex Hloc Hwd Hmk.
  unfold Converter.prepare, bind.
  rewrite Hres, (exists_true _ _ Hex).
  cbn [negb]. rewrite Hnone.
  destruct (truthy output_dir) as [d|].
  - unfold bind. rewrite Hloc, Hwd.
    unfold PathIO.mkdir_parents. rewrite Hmk. reflexivity.
  - unfold bind. rewrite Hloc. unfold ret. subst wd.
    unfold PathIO.mkdir_parents. rewrite Hmk. reflexivity.
Qed.

(** *** What [finish] has done *)

(** Whatever its outcome, [finish] has called [subprocess.run] once,
    with the command of the plan. *)
Lemma finish_spawns_once (run : runner) (output_file : option path_like)
    (timeout : option Q) (plan : Converter.Plan) (w1 w' : World)
    (res : exn + Converter.ConversionResult) :
  Converter.finish run output_file timeout plan w1 = (res, w') ->
  w_spawned w' = (w_spawned w1 ++ [Converter.pl_command plan])%list.
Proof.
  unfold Converter.finish. unfold bind at 1.
  destruct (try_except _ _ w1) as [[e|completed] w2] eqn:Hrun;
    apply run_guarded_inv in Hrun as [-> _].
  - intros [= _ <-]. reflexivity.
  - intros Hrest.
    assert (Hfs : only_fs
              (let* output_exists := PathIO.exists_ (Converter.pl_output plan) in
               let* output_path :=
                 (if negb output_exists then
                    let candidate :=
                      Converter.pl_target_dir plan
                      // (Pathlib.stem (Converter.pl_input plan) ++ ".pdf") in
                    let* candidate_exists := PathIO.exists_ candidate in
                    if candidate_exists then ret candidate
                    else raise (ConversionError Converter.missing_pdf_message)
                  else ret (Converter.pl_output plan)) in
               let* output_path :=
                 match truthy output_file with
                 | Some f =>
                     let* wanted := PathIO.resolve (Path_of f) in
                     if bool_decide (output_path <> wanted) then
                       let* dest := PathIO.resolve (Path_of f) in
                       let* _ := PathIO.replace output_path dest in
                       PathIO.resolve (Path_of f)
                     else ret output_path
                 | None => ret output_path
                 end in
               ret (Converter.mkResult (Converter.pl_input plan) output_path
                      (Converter.pl_command plan)
                      (cp_stdout completed) (cp_stderr completed)))).
    { cbv zeta. frame. }
    rewrite (Hfs _ _ _ Hrest). reflexivity.
Qed.

(** A result comes out of [finish] only after a zero exit status with
    both streams decoded; it carries the decoded streams, and its output
    path is a path that existed after the run, or the explicit path that
    path was moved to. *)
Lemma finish_success_inv (run : runner) (output_file : option path_like)
    (timeout : option Q) (plan : Converter.Plan) (w1 w' : World)
    (r : Converter.ConversionResult) :
  Converter.finish run output_file timeout plan w1 = (inr r, w') ->
  exists out err out' err' fs2 found,
    run (Converter.pl_command plan) timeout w1 = (Exited 0 out err, fs2)
    /\ w_decode w1 out = Some out'
    /\ w_decode w1 err = Some err'
    /\ r = Converter.mkResult (Converter.pl_input plan)
             (Converter.output_path r) (Converter.pl_command plan)
             (universal_newlines out') (universal_newlines err')
    /\ (found = Converter.pl_output plan
        \/ found = Converter.pl_target_dir plan
                   // (Pathlib.stem (Converter.pl_input plan) ++ ".pdf"))
    /\ Fs.exists_ fs2 (PathIO.locate w1 found) = true
    /\ ((Converter.output_path r = found
         /\ w' = log_spawn (Converter.pl_command plan) (set_fs fs2 w1))
        \/ exists f fs3,
             truthy output_file = Some f
             /\ found <> Pathlib.resolve (w_cwd w1) (Path_of f)
             /\ Converter.output_path r
                = Pathlib.resolve (w_cwd w1) (Path_of f)
             /\ Fs.replace fs2 (PathIO.locate w1 found)
                  (PathIO.locate w1 (Pathlib.resolve (w_cwd w1) (Path_of f)))
                = inr fs3
             /\ w' = log_spawn (Converter.pl_command plan) (set_fs fs3 w1)).
Proof.
  unfold Converter.finish. intros H.
  apply bind_inr in H as (completed & w2 & Hrun & H).
  apply run_guarded_inv in Hrun as [-> Hdone].
  destruct (Hdone completed eq_refl) as (out & err & out' & err' & Hout
                                         & Hdo & Hde & ->).
  destruct (run (Converter.pl_command plan) timeout w1) as [outcome fs2].
  cbn [fst snd] in *. subst outcome.
  set (w2 := log_spawn (Converter.pl_command plan) (set_fs fs2 w1)) in *.
  apply bind_inr in H as (output_exists & wa & Hex & H).
  apply exists_inv in Hex as (-> & ->).
  apply bind_inr in H as (found & wb & Hfound & H).
  apply bind_inr in H as (final & wc & Hfinal & H).
  unfold ret in H. injection H as <- <-.
  cbn [cp_stdout cp_stderr Converter.output_path].
  exists out, err, out', err', fs2, found.
  split; [reflexivity|]. split; [exact Hdo|]. split; [exact Hde|].
  split; [reflexivity|].
  assert (Hwhich : (found = Converter.pl_output plan
                    \/ found = Converter.pl_target_dir plan
                         // (Pathlib.stem (Converter.pl_input plan) ++ ".pdf"))
                   /\ Fs.exists_ fs2 (PathIO.locate w1 found) = true
                   /\ wb = w2).
  { destruct (Fs.exists_ (w_fs w2) (PathIO.locate w2 (Converter.pl_output plan)))
      eqn:Hthere; cbn [negb] in Hfound.
    - unfold ret in Hfound. injection Hfound as <- <-. auto.
    - cbv zeta in Hfound.
      apply bind_inr in Hfound as (candidate_exists & wa & Hex & Hfound).
      apply exists_inv in Hex as (-> & ->).
      match type of Hfound with
      | (if ?b then _ else _) _ = _ => destruct b eqn:Hcand
      end; [|discriminate Hfound].
      unfold ret in Hfound. injection Hfound as <- <-. auto. }
  destruct Hwhich as (Hwhich & Hthere & ->).
  split; [exact Hwhich|]. split; [exact Hthere|].
  destruct (truthy output_file) as [f|].
  - apply bind_inr in Hfinal as (wanted & wa & Hwanted & Hfinal).
    apply resolve_inv in Hwanted as (-> & -> & _).
    destruct (bool_decide_reflect
                (found <> Pathlib.resolve (w_cwd w2) (Path_of f))) as [Hne|_].
    + apply bind_inr in Hfinal as (dest & wa & Hdest & Hfinal).
      apply resolve_inv in Hdest as (-> & -> & _).
      apply bind_inr in Hfinal as ([] & wa & Hrep & Hfinal).
      unfold PathIO.replace, lift_fs in Hrep.
      destruct (Fs.replace (w_fs w2) _ _) as [e|fs3] eqn:Hfs3;
        [discriminate Hrep|].
      injection Hrep as <-.
      apply resolve_inv in Hfinal as (-> & -> & _).
      right. exists f, fs3. repeat split; try assumption; reflexivity.
    + unfold ret in Hfinal. injection Hfinal as <- <-. left. auto.
  - unfold ret in Hfinal. injection Hfinal as <- <-. left. auto.
Qed.

Lemma prepare_env (input : path_like)
    (output_file output_dir soffice_path : option path_like)
    (timeout : option Q) (extra_args : option (list string))
    (w w1 : World) (res : exn + Converter.Plan) :
  Converter.prepare input output_file output_dir soffice_path
                    timeout extra_args w = (res, w1) ->
  w_decode w1 = w_decode w /\ w_cwd w1 = w_cwd w
  /\ w_spawned w1 = w_spawned w.
Proof.
  intros H. apply prepare_frame in H. rewrite H. auto.
Qed.

Lemma exists_false_of_stat (p : Path) (w : World) :
  Fs.stat (w_fs w) (PathIO.locate w p) = inr None ->
  PathIO.exists_ p w = (inr false, w).
Proof.
  intros H. unfold PathIO.exists_, bind, PathIO.stat_ignoring.
  rewrite H. reflexivity.
Qed.

(** Steps through [subprocess.run] in [finish] when the process has
    exited and both streams decode. *)
Ltac run_exited Hrun Hout Herr :=
  unfold Converter.finish;
  cbn [Converter.pl_command Converter.pl_output Converter.pl_input
       Converter.pl_target_dir];
  unfold bind at 1;
  unfold try_except, subprocess_run, translate_newlines;
  rewrite Hrun; cbn [w_decode set_fs]; rewrite Hout, Herr.

(** C8, as amended: once the command has been built, a non-zero exit
    status with output that decodes in the encoding of the locale makes
    [convert] raise [ConversionError] with the message of
    [failed_message], which holds the command line joined by blanks, the
    captured standard output and the captured standard error, both as
    decoded text with [CR LF] and [CR] turned into [LF]. *)
Theorem nonzero_exit_reported (run : runner) (input : path_like)
    (output_file output_dir soffice_path : option path_like)
    (timeout : option Q) (extra_args : option (list string))
    (w w1 : World) (plan : Converter.Plan)
    (code : Z) (out err out' err' : string) (fs2 : Fs.t) :
  Converter.prepare input output_file output_dir soffice_path
                    timeout extra_args w = (inr plan, w1) ->
  run (Converter.pl_command plan) timeout w1 = (Exited code out err, fs2) ->
  code <> 0%Z ->
  w_decode w out = Some out' ->
  w_decode w err = Some err' ->
  exists msg,
    Converter.convert run input output_file output_dir soffice_path
                      timeout extra_args w
    = (inl (ConversionError msg),
       log_spawn (Converter.pl_command plan) (set_fs fs2 w1))
    /\ msg = Converter.failed_message (Converter.pl_command plan)
               (universal_newlines out') (universal_newlines err')
    /\ Str.contains msg (Str.join " " (Converter.pl_command plan))
    /\ Str.contains msg (universal_newlines out')
    /\ Str.contains msg (universal_newlines err').
Proof.
  intros Hprep Hrun Hcode Hout Herr.
  destruct (prepare_env _ _ _ _ _ _ _ _ _ Hprep) as (Hdec & _ & _).
  rewrite <- Hdec in Hout, Herr.
  eexists. split; [|split; [reflexivity|apply failed_message_contains]].
  rewrite convert_split. unfold bind at 1. rewrite Hprep.
  run_exited Hrun Hout Herr.
  destruct (Z.eqb_spec code 0) as [->|_]; [contradiction|].
  reflexivity.
Qed.

Lemma nonzero_exit_reported_witness :
  exists msg,
    Converter.convert Demo.fails (PStr "slides.pptx") None None None None None
                      Demo.world
    = (inl (ConversionError msg),
       log_spawn
         ["/d/soffice"; "--headless"; "--nologo"; "--nofirststartwizard";
          "--convert-to"; "pdf"; "--outdir"; "/d"; "/d/slides.pptx"]
         (set_fs Demo.fs Demo.world))
    /\ msg = Converter.failed_message
               ["/d/soffice"; "--headless"; "--nologo"; "--nofirststartwizard";
                "--convert-to"; "pdf"; "--outdir"; "/d"; "/d/slides.pptx"]
               (universal_newlines "") (universal_newlines "boom")
    /\ Str.contains msg
         (Str.join " "
            ["/d/soffice"; "--headless"; "--nologo"; "--nofirststartwizard";
             "--convert-to"; "pdf"; "--outdir"; "/d"; "/d/slides.pptx"])
    /\ Str.contains msg (universal_newlines "")
    /\ Str.contains msg (universal_newlines "boom").
Proof.
  apply (nonzero_exit_reported Demo.fails (PStr "slides.pptx")
           None None None None None Demo.world Demo.world
           (Converter.mkPlan
              (mkPath true ["d"; "slides.pptx"])
              (mkPath true ["d"; "slides.pdf"])
              (mkPath true ["d"])
              ["/d/soffice"; "--headless"; "--nologo"; "--nofirststartwizard";
               "--convert-to"; "pdf"; "--outdir"; "/d"; "/d/slides.pptx"])
           1%Z "" "boom" "" "boom" Demo.fs).
  - vm_compute. reflexivity.
  - reflexivity.
  - discriminate.
  - reflexivity.
  - reflexivity.
Defined.

(** C8 as it stands fails: the converter exits with status 1 after
    writing the byte 0xff to its standard error; [subprocess.run], in
    text mode, fails to decode it, and [convert] lets its
    [UnicodeDecodeError] through. *)
Lemma nonzero_exit_not_always_reported :
  Demo.fails_garbled
    ["/d/soffice"; "--headless"; "--nologo"; "--nofirststartwizard";
     "--convert-to"; "pdf"; "--outdir"; "/d"; "/d/slides.pptx"]
    None Demo.world
  = (Exited 1 "" Demo.xff, Demo.fs)
  /\ exists msg,
       Converter.convert Demo.fails_garbled (PStr "slides.pptx")
                         None None None None None Demo.world
       = (inl (UnicodeDecodeError msg),
          log_spawn
            ["/d/soffice"; "--headless"; "--nologo"; "--nofirststartwizard";
             "--convert-to"; "pdf"; "--outdir"; "/d"; "/d/slides.pptx"]
            (set_fs Demo.fs Demo.world)).
Proof. split; [reflexivity|]. eexists. vm_compute. reflexivity. Qed.

Lemma headless_in_command (exe inp dir : Path) (t : option Q)
    (extra : option (list string)) :
  In "--headless"
     (Converter._build_command (Converter.mkOptions exe t extra) inp dir).
Proof.
  unfold Converter._build_command; cbn.
  destruct extra as [[|a more]|]; cbn; try tauto.
  right. right. apply in_or_app. right. left. reflexivity.
Qed.

(** C1, as amended: without an explicit output path, an existing input,
    a located executable, a working directory that can be made and a
    converter that exits 0 with output that decodes, leaving
    [<stem>.pdf] in that directory, [convert] returns; its output path
    is the working directory (the resolved [output_dir], or the
    directory of the input) joined with [<stem>.pdf], and its command
    holds [--headless]. *)
Theorem convert_default_output (run : runner) (input : path_like)
    (output_file output_dir soffice_path : option path_like)
    (timeout : option Q) (extra_args : option (list string))
    (w : World) (ip exe wd : Path) (fs1 fs2 : Fs.t)
    (out err out' err' : string) :
  let pdf := wd // (Pathlib.stem ip ++ ".pdf") in
  let cmd := Converter._build_command
               (Converter.mkOptions exe timeout extra_args) ip wd in
  truthy output_file = None ->
  Converter.expand_resolve input w = (inr ip, w) ->
  Fs.exists_ (w_fs w) (PathIO.locate w ip) = true ->
  Converter.find_soffice (Converter.soffice_candidate soffice_path) w
  = (inr exe, w) ->
  match truthy output_dir with
  | Some d => Converter.expand_resolve d w = (inr wd, w)
  | None => wd = Pathlib.parent ip
  end ->
  Fs.mkdir_p (w_fs w) (PathIO.locate w wd) = (inr tt, fs1) ->
  run cmd timeout (set_fs fs1 w) = (Exited 0 out err, fs2) ->
  w_decode w out = Some out' ->
  w_decode w err = Some err' ->
  Fs.exists_ fs2 (PathIO.locate w pdf) = true ->
  exists r,
    Converter.convert run input output_file output_dir soffice_path
                      timeout extra_args w
    = (inr r, log_spawn cmd (set_fs fs2 (set_fs fs1 w)))
    /\ r = Converter.mkResult ip pdf cmd
             (universal_newlines out') (universal_newlines err')
    /\ Converter.output_path r = pdf
    /\ In "--headless" (Converter.command r).
Proof.
  intros pdf cmd Hnone Hres Hex Hloc Hwd Hmk Hrun Hout Herr Hpdf.
  eexists.
  split; [|split; [reflexivity|split; [reflexivity|apply headless_in_command]]].
  rewrite convert_split. unfold bind at 1.
  rewrite (prepare_default input output_file output_dir soffice_path timeout
             extra_args w ip exe wd fs1 Hnone Hres Hex Hloc Hwd Hmk).
  fold pdf cmd.
  run_exited Hrun Hout Herr. cbn [Z.eqb].
  unfold bind at 1.
  rewrite (exists_true pdf (log_spawn cmd (set_fs fs2 (set_fs fs1 w))) Hpdf).
  cbn [negb]. unfold bind, ret. rewrite Hnone. reflexivity.
Qed.

Lemma convert_default_output_witness :
  exists r,
    Converter.convert (Demo.writes ["d"; "out"; "slides.pdf"])
      (PStr "slides.pptx") None (Some (PStr "out")) None None None Demo.world
    = (inr r,
       log_spawn
         ["/d/soffice"; "--headless"; "--nologo"; "--nofirststartwizard";
          "--convert-to"; "pdf"; "--outdir"; "/d/out"; "/d/slides.pptx"]
         (set_fs (<[ ["d"; "out"; "slides.pdf"] := Fs.File "pdf" false ]>
                    (<[ ["d"; "out"] := Fs.Dir ]> Demo.fs))
                 (set_fs (<[ ["d"; "out"] := Fs.Dir ]> Demo.fs) Demo.world)))
    /\ r = Converter.mkResult
             (mkPath true ["d"; "slides.pptx"])
             (mkPath true ["d"; "out"; "slides.pdf"])
             ["/d/soffice"; "--headless"; "--nologo"; "--nofirststartwizard";
              "--convert-to"; "pdf"; "--outdir"; "/d/out"; "/d/slides.pptx"]
             (universal_newlines "ok") (universal_newlines "")
    /\ Converter.output_path r = mkPath true ["d"; "out"; "slides.pdf"]
    /\ In "--headless" (Converter.command r).
Proof.
  apply (convert_default_output (Demo.writes ["d"; "out"; "slides.pdf"])
           (PStr "slides.pptx") None (Some (PStr "out")) None None None
           Demo.world
           (mkPath true ["d"; "slides.pptx"])
           (mkPath true ["d"; "soffice"])
           (mkPath true ["d"; "out"])
           (<[ ["d"; "out"] := Fs.Dir ]> Demo.fs)
           (<[ ["d"; "out"; "slides.pdf"] := Fs.File "pdf" false ]>
              (<[ ["d"; "out"] := Fs.Dir ]> Demo.fs))
           "ok" "" "ok" "");
    vm_compute; reflexivity.
Defined.

(** C1 as it stands fails: the converter writes [/d/slides.pdf] and
    exits 0, but it has written the byte 0xff to its standard output;
    [subprocess.run], in text mode, fails to decode it, and [convert]
    raises [UnicodeDecodeError] instead of returning. *)
Lemma default_output_needs_decodable_output :
  let call :=
    Converter.convert (Demo.writes_garbled ["d"; "slides.pdf"])
      (PStr "slides.pptx") None None None None None Demo.world in
  Demo.writes_garbled ["d"; "slides.pdf"]
    ["/d/soffice"; "--headless"; "--nologo"; "--nofirststartwizard";
     "--convert-to"; "pdf"; "--outdir"; "/d"; "/d/slides.pptx"]
    None Demo.world
  = (Exited 0 Demo.xff "",
     <[ ["d"; "slides.pdf"] := Fs.File "pdf" false ]> Demo.fs)
  /\ Fs.read (w_fs (snd call)) ["d"; "slides.pdf"] = Some "pdf"
  /\ exists msg, fst call = inl (UnicodeDecodeError msg).
Proof.
  split; [reflexivity|]. split; [vm_compute; reflexivity|].
  eexists. vm_compute. reflexivity.
Qed.

(** ** After the converter has exited *)

(** X5: with a zero exit status, output that decodes, and [exists]
    answering [False] both for the output path and for the default
    place, [convert] raises [ConversionError] with the message that the
    expected PDF was not created. *)
Lemma missing_pdf_reported (run : runner) (input : path_like)
    (output_file output_dir soffice_path : option path_like)
    (timeout : option Q) (extra_args : option (list string))
    (w w1 : World) (plan : Converter.Plan) (out err out' err' : string)
    (fs2 : Fs.t) :
  let w2 := log_spawn (Converter.pl_command plan) (set_fs fs2 w1) in
  Converter.prepare input output_file output_dir soffice_path
                    timeout extra_args w = (inr plan, w1) ->
  run (Converter.pl_command plan) timeout w1 = (Exited 0 out err, fs2) ->
  w_decode w out = Some out' ->
  w_decode w err = Some err' ->
  PathIO.exists_ (Converter.pl_output plan) w2 = (inr false, w2) ->
  PathIO.exists_
    (Converter.pl_target_dir plan
     // (Pathlib.stem (Converter.pl_input plan) ++ ".pdf")) w2
  = (inr false, w2) ->
  Converter.convert run input output_file output_dir soffice_path
                    timeout extra_args w
  = (inl (ConversionError Converter.missing_pdf_message), w2).
Proof.
  intros w2 Hprep Hrun Hout Herr Hnone Hdefault.
  destruct (prepare_env _ _ _ _ _ _ _ _ _ Hprep) as (Hdec & _ & _).
  rewrite <- Hdec in Hout, Herr.
  rewrite convert_split. unfold bind at 1. rewrite Hprep.
  run_exited Hrun Hout Herr. cbn [Z.eqb]. fold w2.
  unfold bind at 1. rewrite Hnone. cbn [negb].
  unfold bind at 1. unfold bind at 1. rewrite Hdefault. reflexivity.
Qed.

Lemma missing_pdf_reported_witness :
  Converter.convert Demo.writes_nothing (PStr "slides.pptx") None
                    (Some (PStr "out")) None None None Demo.world
  = (inl (ConversionError Converter.missing_pdf_message),
     log_spawn
       ["/d/soffice"; "--headless"; "--nologo"; "--nofirststartwizard";
        "--convert-to"; "pdf"; "--outdir"; "/d/out"; "/d/slides.pptx"]
       (set_fs (<[ ["d"; "out"] := Fs.Dir ]> Demo.fs)
               (set_fs (<[ ["d"; "out"] := Fs.Dir ]> Demo.fs) Demo.world))).
Proof.
  apply (missing_pdf_reported Demo.writes_nothing (PStr "slides.pptx") None
           (Some (PStr "out")) None None None Demo.world
           (set_fs (<[ ["d"; "out"] := Fs.Dir ]> Demo.fs) Demo.world)
           (Converter.mkPlan
              (mkPath true ["d"; "slides.pptx"])
              (mkPath true ["d"; "out"; "slides.pdf"])
              (mkPath true ["d"; "out"])
              ["/d/soffice"; "--headless"; "--nologo"; "--nofirststartwizard";
               "--convert-to"; "pdf"; "--outdir"; "/d/out"; "/d/slides.pptx"])
           "ok" "" "ok" "" (<[ ["d"; "out"] := Fs.Dir ]> Demo.fs));
    vm_compute; reflexivity.
Defined.

(** The explicit output path of a plan, when it has no tilde to
    expand. *)
Lemma plan_output_no_tilde (input f : path_like)
    (output_file output_dir soffice_path : option path_like)
    (timeout : option Q) (extra_args : option (list string))
    (w w1 : World) (plan : Converter.Plan) :
  Converter.prepare input output_file output_dir soffice_path
                    timeout extra_args w = (inr plan, w1) ->
  truthy output_file = Some f ->
  Pathlib.has_tilde (Path_of f) = false ->
  Converter.pl_output plan = Pathlib.resolve (w_cwd w) (Path_of f)
  /\ Fs.has_nul (parts (Path_of f)) = false.
Proof.
  intros Hprep Hf Htilde.
  destruct (prepare_success_inv _ _ _ _ _ _ _ _ _ Hprep)
    as (exe & fs1 & _ & _ & _ & _ & Hout & _ & _).
  rewrite Hf in Hout. destruct Hout as (_ & Hop & _).
  rewrite (expand_resolve_no_tilde _ _ Htilde) in Hop.
  apply resolve_inv in Hop as (_ & -> & Hnul). auto.
Qed.

Lemma resolve_ok (p : Path) (w : World) :
  Fs.has_nul (parts p) = false ->
  PathIO.resolve p w = (inr (Pathlib.resolve (w_cwd w) p), w).
Proof. unfold PathIO.resolve. intros ->. reflexivity. Qed.

(** With an explicit output path that has no tilde to expand and holds
    nothing after the run, the file the converter left at the default
    place is moved there. *)
Lemma explicit_output_moved (run : runner) (input f : path_like)
    (output_file output_dir soffice_path : option path_like)
    (timeout : option Q) (extra_args : option (list string))
    (w w1 : World) (plan : Converter.Plan) (out err out' err' : string)
    (fs2 : Fs.t) (content : string) (x : bool) :
  let dest := Pathlib.resolve (w_cwd w) (Path_of f) in
  let produced := Converter.pl_target_dir plan
                  // (Pathlib.stem (Converter.pl_input plan) ++ ".pdf") in
  Converter.prepare input output_file output_dir soffice_path
                    timeout extra_args w = (inr plan, w1) ->
  truthy output_file = Some f ->
  Pathlib.has_tilde (Path_of f) = false ->
  run (Converter.pl_command plan) timeout w1 = (Exited 0 out err, fs2) ->
  w_decode w out = Some out' ->
  w_decode w err = Some err' ->
  Fs.stat fs2 (PathIO.locate w dest) = inr None ->
  Fs.lookup fs2 (PathIO.locate w produced) = Some (Fs.File content x) ->
  Fs.is_dir fs2 (removelast (PathIO.locate w dest)) = true ->
  let fs3 := <[ PathIO.locate w dest := Fs.File content x ]>
               (delete (PathIO.locate w produced) fs2) in
  Converter.convert run input output_file output_dir soffice_path
                    timeout extra_args w
  = (inr (Converter.mkResult (Converter.pl_input plan) dest
            (Converter.pl_command plan)
            (universal_newlines out') (universal_newlines err')),
     log_spawn (Converter.pl_command plan) (set_fs fs3 w1))
  /\ Fs.lookup fs3 (PathIO.locate w dest) = Some (Fs.File content x)
  /\ Fs.lookup fs3 (PathIO.locate w produced) = None.
Proof.
  intros dest produced Hprep Hf Htilde Hrun Hout Herr Habsent Hfile Hparent.
  destruct (prepare_env _ _ _ _ _ _ _ _ _ Hprep) as (Hdec & Hcwd & _).
  rewrite <- Hdec in Hout, Herr.
  destruct (plan_output_no_tilde _ _ _ _ _ _ _ _ _ _ Hprep Hf Htilde)
    as [Hplan Hnul].
  fold dest in Hplan.
  assert (Hlne : PathIO.locate w produced <> PathIO.locate w dest).
  { intros Heq. rewrite Heq in Hfile. apply lookup_stat in Hfile.
    rewrite Hfile in Habsent. discriminate. }
  assert (Hne : produced <> dest).
  { intros Heq. apply Hlne. rewrite Heq. reflexivity. }
  assert (Hdir : Fs.lookup fs2 (removelast (PathIO.locate w dest))
                 = Some Fs.Dir).
  { unfold Fs.is_dir in Hparent.
    destruct (Fs.lookup fs2 (removelast (PathIO.locate w dest)))
      as [[c' x'|]|]; try discriminate Hparent. reflexivity. }
  destruct (replace_file fs2 _ _ content x None Hfile Habsent
              ltac:(discriminate) Hdir Hlne) as (Hrep & Hthere & Hgone).
  intros fs3. split; [|split; [exact Hthere|exact Hgone]].
  set (w2 := log_spawn (Converter.pl_command plan) (set_fs fs2 w1)).
  assert (Hloc : forall p, PathIO.locate w2 p = PathIO.locate w p).
  { intros p. unfold PathIO.locate. cbn [w2 w_cwd log_spawn set_fs].
    rewrite Hcwd. reflexivity. }
  assert (Hres : PathIO.resolve (Path_of f) w2 = (inr dest, w2)).
  { rewrite (resolve_ok _ _ Hnul). cbn [w2 w_cwd log_spawn set_fs].
    rewrite Hcwd. reflexivity. }
  rewrite convert_split. unfold bind at 1. rewrite Hprep.
  run_exited Hrun Hout Herr. cbn [Z.eqb]. fold w2.
  unfold bind at 1. rewrite exists_false_of_stat
    by (rewrite Hloc, Hplan; exact Habsent).
  cbn [negb]. unfold bind at 1. unfold bind at 1. fold produced.
  rewrite exists_true
    by (unfold Fs.exists_; rewrite Hloc; cbn [w2 w_fs log_spawn set_fs];
        rewrite Hfile; reflexivity).
  unfold ret at 1. rewrite Hf.
  unfold bind at 1. unfold bind at 1. rewrite Hres.
  rewrite (bool_decide_eq_true_2 _ Hne).
  unfold bind at 1. rewrite Hres. unfold bind at 1.
  unfold PathIO.replace, lift_fs. rewrite !Hloc.
  cbn [w2 w_fs log_spawn set_fs]. rewrite Hrep.
  fold w2. unfold PathIO.resolve. cbn [w_cwd set_fs w2 log_spawn].
  rewrite Hnul, Hcwd. fold dest. unfold ret. reflexivity.
Qed.

(** X6: with an explicit output path that has no tilde to expand and at
    which [stat] finds nothing after the run, the regular file the
    converter left at the default place is moved there: [convert]
    reports the explicit path, that path holds the content the converter
    wrote, the default place is empty, and no other entry of the file
    system has changed. *)
Theorem explicit_output_renamed (run : runner) (input f : path_like)
    (output_file output_dir soffice_path : option path_like)
    (timeout : option Q) (extra_args : option (list string))
    (w w1 : World) (plan : Converter.Plan) (out err out' err' : string)
    (fs2 : Fs.t) (content : string) (x : bool) :
  let dest := Pathlib.resolve (w_cwd w) (Path_of f) in
  let produced := Converter.pl_target_dir plan
                  // (Pathlib.stem (Converter.pl_input plan) ++ ".pdf") in
  Converter.prepare input output_file output_dir soffice_path
                    timeout extra_args w = (inr plan, w1) ->
  truthy output_file = Some f ->
  Pathlib.has_tilde (Path_of f) = false ->
  run (Converter.pl_command plan) timeout w1 = (Exited 0 out err, fs2) ->
  w_decode w out = Some out' ->
  w_decode w err = Some err' ->
  Fs.stat fs2 (PathIO.locate w dest) = inr None ->
  Fs.lookup fs2 (PathIO.locate w produced) = Some (Fs.File content x) ->
  Fs.is_dir fs2 (removelast (PathIO.locate w dest)) = true ->
  exists r w',
    Converter.convert run input output_file output_dir soffice_path
                      timeout extra_args w = (inr r, w')
    /\ Converter.output_path r = dest
    /\ Fs.read (w_fs w') (PathIO.locate w dest) = Some content
    /\ Fs.exists_ (w_fs w') (PathIO.locate w produced) = false
    /\ (forall k, k <> PathIO.locate w dest ->
                  k <> PathIO.locate w produced ->
                  Fs.entry (w_fs w') k = Fs.entry fs2 k).
Proof.
  intros dest produced Hprep Hf Htilde Hrun Hout Herr Habsent Hfile Hparent.
  destruct (explicit_output_moved run input f output_file output_dir
              soffice_path timeout extra_args w w1 plan out err out' err'
              fs2 content x Hprep Hf Htilde Hrun Hout Herr Habsent Hfile
              Hparent) as (Hconv & Hthere & Hgone).
  fold dest produced in Hconv, Hthere, Hgone.
  eexists. eexists. split; [exact Hconv|].
  cbn [Converter.output_path w_fs log_spawn set_fs].
  split; [reflexivity|]. split; [|split].
  - unfold Fs.read. rewrite Hthere. reflexivity.
  - unfold Fs.exists_. rewrite Hgone. reflexivity.
  - intros k Hkd Hks.
    rewrite entry_insert_ne by (intros Heq; apply Hkd; symmetry; exact Heq).
    apply entry_delete_ne. intros Heq; apply Hks; symmetry; exact Heq.
Qed.

Lemma explicit_output_renamed_witness :
  exists r w',
    Converter.convert (Demo.writes ["d"; "custom"; "slides.pdf"])
      (PStr "slides.pptx") (Some (PStr "custom/presentation.pdf"))
      None None None None Demo.world = (inr r, w')
    /\ Converter.output_path r
       = mkPath true ["d"; "custom"; "presentation.pdf"]
    /\ Fs.read (w_fs w') ["d"; "custom"; "presentation.pdf"] = Some "pdf"
    /\ Fs.exists_ (w_fs w') ["d"; "custom"; "slides.pdf"] = false
    /\ (forall k, k <> ["d"; "custom"; "presentation.pdf"] ->
                  k <> ["d"; "custom"; "slides.pdf"] ->
                  Fs.entry (w_fs w') k
                  = Fs.entry
                      (<[ ["d"; "custom"; "slides.pdf"] := Fs.File "pdf" false ]>
                         (<[ ["d"; "custom"] := Fs.Dir ]> Demo.fs)) k).
Proof.
  apply (explicit_output_renamed (Demo.writes ["d"; "custom"; "slides.pdf"])
           (PStr "slides.pptx") (PStr "custom/presentation.pdf")
           (Some (PStr "custom/presentation.pdf")) None None None None
           Demo.world
           (set_fs (<[ ["d"; "custom"] := Fs.Dir ]> Demo.fs) Demo.world)
           (Converter.mkPlan
              (mkPath true ["d"; "slides.pptx"])
              (mkPath true ["d"; "custom"; "presentation.pdf"])
              (mkPath true ["d"; "custom"])
              ["/d/soffice"; "--headless"; "--nologo"; "--nofirststartwizard";
               "--convert-to"; "pdf"; "--outdir"; "/d/custom"; "/d/slides.pptx"])
           "ok" "" "ok" ""
           (<[ ["d"; "custom"; "slides.pdf"] := Fs.File "pdf" false ]>
              (<[ ["d"; "custom"] := Fs.Dir ]> Demo.fs))
           "pdf" false);
    vm_compute; reflexivity.
Defined.

(** X7: when the explicit output path has no tilde to expand and is the
    very place the converter writes to ([<parent>/<stem>.pdf]), nothing
    is moved: [convert] reports that path and leaves the file system as
    the converter left it. *)
Theorem explicit_output_in_place (run : runner) (input f : path_like)
    (output_file output_dir soffice_path : option path_like)
    (timeout : option Q) (extra_args : option (list string))
    (w w1 : World) (plan : Converter.Plan) (out err out' err' : string)
    (fs2 : Fs.t) :
  Converter.prepare input output_file output_dir soffice_path
                    timeout extra_args w = (inr plan, w1) ->
  truthy output_file = Some f ->
  Pathlib.has_tilde (Path_of f) = false ->
  Converter.pl_output plan
  = Converter.pl_target_dir plan
    // (Pathlib.stem (Converter.pl_input plan) ++ ".pdf") ->
  run (Converter.pl_command plan) timeout w1 = (Exited 0 out err, fs2) ->
  w_decode w out = Some out' ->
  w_decode w err = Some err' ->
  Fs.exists_ fs2 (PathIO.locate w (Converter.pl_output plan)) = true ->
  Converter.convert run input output_file output_dir soffice_path
                    timeout extra_args w
  = (inr (Converter.mkResult (Converter.pl_input plan)
            (Converter.pl_output plan) (Converter.pl_command plan)
            (universal_newlines out') (universal_newlines err')),
     log_spawn (Converter.pl_command plan) (set_fs fs2 w1)).
Proof.
  intros Hprep Hf Htilde Hsame Hrun Hout Herr Hthere.
  destruct (prepare_env _ _ _ _ _ _ _ _ _ Hprep) as (Hdec & Hcwd & _).
  rewrite <- Hdec in Hout, Herr.
  destruct (plan_output_no_tilde _ _ _ _ _ _ _ _ _ _ Hprep Hf Htilde)
    as [Hplan Hnul].
  set (w2 := log_spawn (Converter.pl_command plan) (set_fs fs2 w1)).
  assert (Hres : PathIO.resolve (Path_of f) w2
                 = (inr (Converter.pl_output plan), w2)).
  { rewrite (resolve_ok _ _ Hnul). cbn [w2 w_cwd log_spawn set_fs].
    rewrite Hcwd, Hplan. reflexivity. }
  rewrite convert_split. unfold bind at 1. rewrite Hprep.
  run_exited Hrun Hout Herr. cbn [Z.eqb]. fold w2.
  unfold bind at 1. rewrite exists_true
    by (unfold PathIO.locate in *; cbn [w2 w_fs w_cwd log_spawn set_fs];
        rewrite Hcwd; exact Hthere).
  cbn [negb]. unfold bind at 1. unfold ret at 1. rewrite Hf.
  unfold bind at 1. unfold bind at 1. rewrite Hres.
  rewrite bool_decide_eq_false_2 by (intros Hne; apply Hne; reflexivity).
  reflexivity.
Qed.

Lemma explicit_output_in_place_witness :
  Converter.convert (Demo.writes ["d"; "out"; "slides.pdf"])
    (PStr "slides.pptx") (Some (PStr "out/slides.pdf"))
    None None None None Demo.world
  = (inr (Converter.mkResult
            (mkPath true ["d"; "slides.pptx"])
            (mkPath true ["d"; "out"; "slides.pdf"])
            ["/d/soffice"; "--headless"; "--nologo"; "--nofirststartwizard";
             "--convert-to"; "pdf"; "--outdir"; "/d/out"; "/d/slides.pptx"]
            (universal_newlines "ok") (universal_newlines "")),
     log_spawn
       ["/d/soffice"; "--headless"; "--nologo"; "--nofirststartwizard";
        "--convert-to"; "pdf"; "--outdir"; "/d/out"; "/d/slides.pptx"]
       (set_fs (<[ ["d"; "out"; "slides.pdf"] := Fs.File "pdf" false ]>
                  (<[ ["d"; "out"] := Fs.Dir ]> Demo.fs))
               (set_fs (<[ ["d"; "out"] := Fs.Dir ]> Demo.fs) Demo.world))).
Proof.
  apply (explicit_output_in_place (Demo.writes ["d"; "out"; "slides.pdf"])
           (PStr "slides.pptx") (PStr "out/slides.pdf")
           (Some (PStr "out/slides.pdf")) None None None None
           Demo.world
           (set_fs (<[ ["d"; "out"] := Fs.Dir ]> Demo.fs) Demo.world)
           (Converter.mkPlan
              (mkPath true ["d"; "slides.pptx"])
              (mkPath true ["d"; "out"; "slides.pdf"])
              (mkPath true ["d"; "out"])
              ["/d/soffice"; "--headless"; "--nologo"; "--nofirststartwizard";
               "--convert-to"; "pdf"; "--outdir"; "/d/out"; "/d/slides.pptx"])
           "ok" "" "ok" ""
           (<[ ["d"; "out"; "slides.pdf"] := Fs.File "pdf" false ]>
              (<[ ["d"; "out"] := Fs.Dir ]> Demo.fs)));
    vm_compute; reflexivity.
Defined.
(** *** A file already at the explicit output path

    In [Demo.stale_world] an earlier run has left
    [/d/custom/presentation.pdf] with the content [old].  The check
    after the run looks at the output path first, finds that file, and
    never looks at the place the converter writes to. *)

(** C3 does not hold of the code: the converter exits 0 and writes
    nothing, [/d/custom/slides.pdf] does not exist, and [convert]
    returns a result instead of raising [ConversionError]. *)
Theorem stale_output_hides_missing_pdf :
  let call :=
    Converter.convert Demo.writes_nothing (PStr "slides.pptx")
      (Some (PStr "custom/presentation.pdf")) None None None None
      Demo.stale_world in
  exists r,
    fst call = inr r
    /\ Converter.output_path r = mkPath true ["d"; "custom"; "presentation.pdf"]
    /\ w_spawned (snd call) = [Converter.command r]
    /\ Fs.exists_ (w_fs (snd call)) ["d"; "custom"; "slides.pdf"] = false
    /\ Fs.read (w_fs (snd call)) ["d"; "custom"; "presentation.pdf"]
       = Some "old".
Proof.
  eexists. repeat split; vm_compute; reflexivity.
Qed.

(** The same call where nothing was in the way is refused. *)
Example missing_pdf_detected_without_stale_file :
  fst (Converter.convert Demo.writes_nothing (PStr "slides.pptx")
         (Some (PStr "custom/presentation.pdf")) None None None None
         Demo.world)
  = inl (ConversionError Converter.missing_pdf_message).
Proof. vm_compute. reflexivity. Qed.

(** C4 does not hold of the code: the converter writes
    [/d/custom/slides.pdf]; [convert] reports the explicit path, which
    still holds [old], and the new file stays where it was written. *)
Theorem stale_output_not_overwritten :
  let call :=
    Converter.convert (Demo.writes ["d"; "custom"; "slides.pdf"])
      (PStr "slides.pptx")
      (Some (PStr "custom/presentation.pdf")) None None None None
      Demo.stale_world in
  exists r,
    fst call = inr r
    /\ Converter.output_path r = mkPath true ["d"; "custom"; "presentation.pdf"]
    /\ Fs.read (w_fs (snd call)) ["d"; "custom"; "presentation.pdf"]
       = Some "old"
    /\ Fs.read (w_fs (snd call)) ["d"; "custom"; "slides.pdf"] = Some "pdf".
Proof.
  eexists. repeat split; vm_compute; reflexivity.
Qed.

(** The same call where nothing was in the way moves the file. *)
Example output_moved_without_stale_file :
  let call :=
    Converter.convert (Demo.writes ["d"; "custom"; "slides.pdf"])
      (PStr "slides.pptx")
      (Some (PStr "custom/presentation.pdf")) None None None None
      Demo.world in
  exists r,
    fst call = inr r
    /\ Converter.output_path r = mkPath true ["d"; "custom"; "presentation.pdf"]
    /\ Fs.read (w_fs (snd call)) ["d"; "custom"; "presentation.pdf"]
       = Some "pdf"
    /\ Fs.exists_ (w_fs (snd call)) ["d"; "custom"; "slides.pdf"] = false.
Proof.
  eexists. repeat split; vm_compute; reflexivity.
Qed.


(* ------------------------------------------------------------------ *)
(** * Further properties of [convert] and [main] *)

(** ** One process per call *)

(** X1: a call of [convert] runs [subprocess.run] at most once; when it
    returns a result it has run it exactly once, with the command the
    result reports. *)
Theorem convert_spawns_at_most_once (run : runner) (input : path_like)
    (output_file output_dir soffice_path : option path_like)
    (timeout : option Q) (extra_args : option (list string))
    (w w' : World) (res : exn + Converter.ConversionResult) :
  Converter.convert run input output_file output_dir soffice_path
                    timeout extra_args w = (res, w') ->
  (w_spawned w' = w_spawned w
   \/ exists cmd, w_spawned w' = (w_spawned w ++ [cmd])%list)
  /\ (forall r, res = inr r ->
        w_spawned w' = (w_spawned w ++ [Converter.command r])%list).
Proof.
  rewrite convert_split. unfold bind at 1.
  destruct (Converter.prepare input output_file output_dir soffice_path
              timeout extra_args w) as [[e|plan] w1] eqn:Hprep;
    apply prepare_env in Hprep as (_ & _ & Hsame).
  - intros [= <- <-]. split; [|discriminate].
    left. exact Hsame.
  - intros Hfin.
    pose proof (finish_spawns_once _ _ _ _ _ _ _ Hfin) as Hlog.
    rewrite Hsame in Hlog. split.
    + right. eexists. exact Hlog.
    + intros r ->.
      destruct (finish_success_inv _ _ _ _ _ _ _ Hfin)
        as (out & err & out' & err' & fs2 & found & _ & _ & _ & Hr & _).
      rewrite Hr. exact Hlog.
Qed.

Lemma convert_spawns_at_most_once_witness :
  (w_spawned
     (snd (Converter.convert (Demo.writes ["d"; "slides.pdf"])
             (PStr "slides.pptx") None None None None None Demo.world))
   = w_spawned Demo.world
   \/ exists cmd,
        w_spawned
          (snd (Converter.convert (Demo.writes ["d"; "slides.pdf"])
                  (PStr "slides.pptx") None None None None None Demo.world))
        = (w_spawned Demo.world ++ [cmd])%list)
  /\ (forall r,
        fst (Converter.convert (Demo.writes ["d"; "slides.pdf"])
               (PStr "slides.pptx") None None None None None Demo.world)
        = inr r ->
        w_spawned
          (snd (Converter.convert (Demo.writes ["d"; "slides.pdf"])
                  (PStr "slides.pptx") None None None None None Demo.world))
        = (w_spawned Demo.world ++ [Converter.command r])%list).
Proof.
  apply (convert_spawns_at_most_once (Demo.writes ["d"; "slides.pdf"])
           (PStr "slides.pptx") None None None None None Demo.world).
  apply surjective_pairing.
Defined.

(** X2: [convert] returns a result only when the process has exited
    with status 0 and both captured streams decode in the encoding of
    the locale; the result carries the decoded text of its standard
    output and standard error, with [CR LF] and [CR] turned into
    [LF]. *)
Theorem convert_success_means_zero_exit (run : runner) (input : path_like)
    (output_file output_dir soffice_path : option path_like)
    (timeout : option Q) (extra_args : option (list string))
    (w w' : World) (r : Converter.ConversionResult) :
  Converter.convert run input output_file output_dir soffice_path
                    timeout extra_args w = (inr r, w') ->
  exists plan w1 fs2 out err out' err',
    Converter.prepare input output_file output_dir soffice_path
                      timeout extra_args w = (inr plan, w1)
    /\ Converter.command r = Converter.pl_command plan
    /\ run (Converter.command r) timeout w1 = (Exited 0 out err, fs2)
    /\ w_decode w out = Some out'
    /\ w_decode w err = Some err'
    /\ Converter.stdout r = universal_newlines out'
    /\ Converter.stderr r = universal_newlines err'.
Proof.
  rewrite convert_split. unfold bind at 1.
  destruct (Converter.prepare input output_file output_dir soffice_path
              timeout extra_args w) as [[e|plan] w1] eqn:Hprep;
    [discriminate|].
  intros Hfin.
  destruct (prepare_env _ _ _ _ _ _ _ _ _ Hprep) as (Hdec & _ & _).
  destruct (finish_success_inv _ _ _ _ _ _ _ Hfin)
    as (out & err & out' & err' & fs2 & found & Hrun & Hout & Herr & Hr & _).
  rewrite Hdec in Hout, Herr.
  exists plan, w1, fs2, out, err, out', err'. rewrite Hr. cbn.
  auto 10.
Qed.

Lemma convert_success_means_zero_exit_witness :
  exists plan w1 fs2 out err out' err',
    Converter.prepare (PStr "slides.pptx") None None None None None Demo.world
    = (inr plan, w1)
    /\ ["/d/soffice"; "--headless"; "--nologo"; "--nofirststartwizard";
        "--convert-to"; "pdf"; "--outdir"; "/d"; "/d/slides.pptx"]
       = Converter.pl_command plan
    /\ Demo.writes_crlf ["d"; "slides.pdf"]
         ["/d/soffice"; "--headless"; "--nologo"; "--nofirststartwizard";
          "--convert-to"; "pdf"; "--outdir"; "/d"; "/d/slides.pptx"]
         None w1
       = (Exited 0 out err, fs2)
    /\ Demo.ascii_decode out = Some out'
    /\ Demo.ascii_decode err = Some err'
    /\ String "a" (String "010" "b") = universal_newlines out'
    /\ String "010" "" = universal_newlines err'.
Proof.
  apply (convert_success_means_zero_exit (Demo.writes_crlf ["d"; "slides.pdf"])
           (PStr "slides.pptx") None None None None None Demo.world
           (snd (Converter.convert (Demo.writes_crlf ["d"; "slides.pdf"])
                   (PStr "slides.pptx") None None None None None Demo.world))
           (Converter.mkResult
              (mkPath true ["d"; "slides.pptx"])
              (mkPath true ["d"; "slides.pdf"])
              ["/d/soffice"; "--headless"; "--nologo"; "--nofirststartwizard";
               "--convert-to"; "pdf"; "--outdir"; "/d"; "/d/slides.pptx"]
              (String "a" (String "010" "b")) (String "010" ""))).
  vm_compute. reflexivity.
Defined.

(** ** Failures of the process *)

(** X3: when the process does not finish within the timeout, [convert]
    raises [ConversionError] with the fixed timeout message. *)
Theorem timeout_reported (run : runner) (input : path_like)
    (output_file output_dir soffice_path : option path_like)
    (timeout : option Q) (extra_args : option (list string))
    (w w1 : World) (plan : Converter.Plan) (fs2 : Fs.t) :
  Converter.prepare input output_file output_dir soffice_path
                    timeout extra_args w = (inr plan, w1) ->
  run (Converter.pl_command plan) timeout w1 = (TimedOut, fs2) ->
  Converter.convert run input output_file output_dir soffice_path
                    timeout extra_args w
  = (inl (ConversionError
            "LibreOffice timed out while converting the presentation."),
     log_spawn (Converter.pl_command plan) (set_fs fs2 w1)).
Proof.
  intros Hprep Hrun.
  rewrite convert_split. unfold bind at 1. rewrite Hprep.
  unfold Converter.finish. unfold bind at 1.
  unfold try_except, subprocess_run. rewrite Hrun. reflexivity.
Qed.

Lemma timeout_reported_witness :
  Converter.convert Demo.times_out (PStr "slides.pptx") None None None
                    (Some (1 # 2)%Q) None Demo.world
  = (inl (ConversionError
            "LibreOffice timed out while converting the presentation."),
     log_spawn
       ["/d/soffice"; "--headless"; "--nologo"; "--nofirststartwizard";
        "--convert-to"; "pdf"; "--outdir"; "/d"; "/d/slides.pptx"]
       (set_fs Demo.fs Demo.world)).
Proof.
  apply (timeout_reported Demo.times_out (PStr "slides.pptx")
           None None None (Some (1 # 2)%Q) None Demo.world Demo.world
           (Converter.mkPlan
              (mkPath true ["d"; "slides.pptx"])
              (mkPath true ["d"; "slides.pdf"])
              (mkPath true ["d"])
              ["/d/soffice"; "--headless"; "--nologo"; "--nofirststartwizard";
               "--convert-to"; "pdf"; "--outdir"; "/d"; "/d/slides.pptx"])
           Demo.fs).
  - vm_compute. reflexivity.
  - reflexivity.
Defined.

(** X4: an exception of [subprocess.run] other than [TimeoutExpired] and
    [CalledProcessError] (the program could not be started) is not
    turned into a [ConversionError]: it leaves [convert] as it is. *)
Theorem spawn_error_propagates (run : runner) (input : path_like)
    (output_file output_dir soffice_path : option path_like)
    (timeout : option Q) (extra_args : option (list string))
    (w w1 : World) (plan : Converter.Plan) (fs2 : Fs.t) (e : exn) :
  Converter.prepare input output_file output_dir soffice_path
                    timeout extra_args w = (inr plan, w1) ->
  run (Converter.pl_command plan) timeout w1 = (SpawnFailed e, fs2) ->
  match e with
  | TimeoutExpired _ | CalledProcessError _ _ _ _ => False
  | _ => True
  end ->
  Converter.convert run input output_file output_dir soffice_path
                    timeout extra_args w
  = (inl e, log_spawn (Converter.pl_command plan) (set_fs fs2 w1)).
Proof.
  intros Hprep Hrun Hkind.
  rewrite convert_split. unfold bind at 1. rewrite Hprep.
  unfold Converter.finish. unfold bind at 1.
  unfold try_except, subprocess_run. rewrite Hrun.
  destruct e; try contradiction; reflexivity.
Qed.

Lemma spawn_error_propagates_witness :
  Converter.convert Demo.cannot_start (PStr "slides.pptx") None None None
                    None None Demo.world
  = (inl (OSError "Permission denied: /d/soffice"),
     log_spawn
       ["/d/soffice"; "--headless"; "--nologo"; "--nofirststartwizard";
        "--convert-to"; "pdf"; "--outdir"; "/d"; "/d/slides.pptx"]
       (set_fs Demo.fs Demo.world)).
Proof.
  apply (spawn_error_propagates Demo.cannot_start (PStr "slides.pptx")
           None None None None None Demo.world Demo.world
           (Converter.mkPlan
              (mkPath true ["d"; "slides.pptx"])
              (mkPath true ["d"; "slides.pdf"])
              (mkPath true ["d"])
              ["/d/soffice"; "--headless"; "--nologo"; "--nofirststartwizard";
               "--convert-to"; "pdf"; "--outdir"; "/d"; "/d/slides.pptx"])
           Demo.fs (OSError "Permission denied: /d/soffice")).
  - vm_compute. reflexivity.
  - reflexivity.
  - exact I.
Defined.
(** ** What a result says *)

Lemma joinpath_absolute (p : Path) (s : string) :
  absolute p = true -> absolute (p // s) = true.
Proof.
  intros Hp. unfold Pathlib.joinpath.
  destruct (absolute (Pathlib.of_str s)) eqn:Hs; [exact Hs|exact Hp].
Qed.

(** X8: the input path and the output path of every result are
    absolute. *)
Theorem convert_result_paths_absolute (run : runner) (input : path_like)
    (output_file output_dir soffice_path : option path_like)
    (timeout : option Q) (extra_args : option (list string))
    (w w' : World) (r : Converter.ConversionResult) :
  Converter.convert run input output_file output_dir soffice_path
                    timeout extra_args w = (inr r, w') ->
  absolute (Converter.input_path r) = true
  /\ absolute (Converter.output_path r) = true.
Proof.
  rewrite convert_split. unfold bind at 1.
  destruct (Converter.prepare input output_file output_dir soffice_path
              timeout extra_args w) as [[e|plan] w1] eqn:Hprep;
    [discriminate|].
  intros Hfin.
  destruct (prepare_success_inv _ _ _ _ _ _ _ _ _ Hprep)
    as (exe & fs1 & Hin & _ & _ & _ & Hout & _ & _).
  apply expand_resolve_absolute in Hin.
  assert (Hdirs : absolute (Converter.pl_output plan) = true
                  /\ absolute (Converter.pl_target_dir plan) = true).
  { destruct (truthy output_file) as [f|].
    - destruct Hout as (_ & Hop & ->).
      apply expand_resolve_absolute in Hop. split; [exact Hop|exact Hop].
    - destruct Hout as (-> & Htd).
      assert (Ht : absolute (Converter.pl_target_dir plan) = true).
      { destruct (truthy output_dir) as [d|].
        - eapply expand_resolve_absolute; exact Htd.
        - rewrite Htd. exact Hin. }
      split; [apply joinpath_absolute; exact Ht|exact Ht]. }
  destruct Hdirs as [Hop Htd].
  destruct (finish_success_inv _ _ _ _ _ _ _ Hfin)
    as (out & err & out' & err' & fs2 & found & _ & _ & _ & Hr & Hfound
        & _ & Hend).
  rewrite Hr. cbn [Converter.input_path Converter.output_path].
  split; [exact Hin|].
  destruct Hend as [[-> _]|(f & fs3 & _ & _ & -> & _)]; [|reflexivity].
  destruct Hfound as [->| ->]; [exact Hop|apply joinpath_absolute; exact Htd].
Qed.

Lemma convert_result_paths_absolute_witness :
  absolute (mkPath true ["d"; "slides.pptx"]) = true
  /\ absolute (mkPath true ["d"; "out"; "slides.pdf"]) = true.
Proof.
  apply (convert_result_paths_absolute (Demo.writes ["d"; "out"; "slides.pdf"])
           (PStr "slides.pptx") None (Some (PStr "out")) None None None
           Demo.world
           (snd (Converter.convert (Demo.writes ["d"; "out"; "slides.pdf"])
                   (PStr "slides.pptx") None (Some (PStr "out"))
                   None None None Demo.world))
           (Converter.mkResult
              (mkPath true ["d"; "slides.pptx"])
              (mkPath true ["d"; "out"; "slides.pdf"])
              ["/d/soffice"; "--headless"; "--nologo"; "--nofirststartwizard";
               "--convert-to"; "pdf"; "--outdir"; "/d/out"; "/d/slides.pptx"]
              (universal_newlines "ok") (universal_newlines ""))).
  vm_compute. reflexivity.
Defined.

(** X10: the command of every result is the located executable, the
    extra arguments, the built-in options with the working directory
    after [--outdir], and the resolved input path of the result; the
    working directory is the parent of the explicit output path, else
    the resolved output directory, else the directory of the input. *)
Theorem convert_command_shape (run : runner) (input : path_like)
    (output_file output_dir soffice_path : option path_like)
    (timeout : option Q) (extra_args : option (list string))
    (w w' : World) (r : Converter.ConversionResult) :
  Converter.convert run input output_file output_dir soffice_path
                    timeout extra_args w = (inr r, w') ->
  exists exe dir,
    Converter.find_soffice (Converter.soffice_candidate soffice_path) w
    = (inr exe, w)
    /\ Converter.command r
       = (Pathlib.to_str exe :: default [] extra_args
            ++ [ "--headless"; "--nologo"; "--nofirststartwizard";
                 "--convert-to"; "pdf"; "--outdir";
                 Pathlib.to_str dir;
                 Pathlib.to_str (Converter.input_path r) ])%list
    /\ match truthy output_file with
       | Some f => exists op, Converter.expand_resolve f w = (inr op, w)
                              /\ dir = Pathlib.parent op
       | None =>
           match truthy output_dir with
           | Some d => Converter.expand_resolve d w = (inr dir, w)
           | None => dir = Pathlib.parent (Converter.input_path r)
           end
       end.
Proof.
  rewrite convert_split. unfold bind at 1.
  destruct (Converter.prepare input output_file output_dir soffice_path
              timeout extra_args w) as [[e|plan] w1] eqn:Hprep;
    [discriminate|].
  intros Hfin.
  destruct (prepare_success_inv _ _ _ _ _ _ _ _ _ Hprep)
    as (exe & fs1 & _ & _ & Hloc & Hcmd & Hout & _ & _).
  destruct (finish_success_inv _ _ _ _ _ _ _ Hfin)
    as (out & err & out' & err' & fs2 & found & _ & _ & _ & Hr & _).
  exists exe, (Converter.pl_target_dir plan).
  rewrite Hr. cbn [Converter.input_path Converter.command].
  split; [exact Hloc|]. split.
  - rewrite Hcmd. unfold Converter._build_command. cbn.
    destruct extra_args as [[|a more]|]; reflexivity.
  - destruct (truthy output_file) as [f|].
    + destruct Hout as (_ & Hop & Htd). eauto.
    + destruct Hout as (_ & Htd). exact Htd.
Qed.

Lemma convert_command_shape_witness :
  exists exe dir,
    Converter.find_soffice (Converter.soffice_candidate None) Demo.world
    = (inr exe, Demo.world)
    /\ ["/d/soffice"; "-env:x"; "--headless"; "--nologo";
        "--nofirststartwizard"; "--convert-to"; "pdf"; "--outdir";
        "/d/out"; "/d/slides.pptx"]
       = (Pathlib.to_str exe :: default [] (Some ["-env:x"])
            ++ [ "--headless"; "--nologo"; "--nofirststartwizard";
                 "--convert-to"; "pdf"; "--outdir";
                 Pathlib.to_str dir;
                 Pathlib.to_str (mkPath true ["d"; "slides.pptx"]) ])%list
    /\ Converter.expand_resolve (PStr "out") Demo.world = (inr dir, Demo.world).
Proof.
  apply (convert_command_shape (Demo.writes ["d"; "out"; "slides.pdf"])
           (PStr "slides.pptx") None (Some (PStr "out")) None None
           (Some ["-env:x"]) Demo.world
           (snd (Converter.convert (Demo.writes ["d"; "out"; "slides.pdf"])
                   (PStr "slides.pptx") None (Some (PStr "out"))
                   None None (Some ["-env:x"]) Demo.world))
           (Converter.mkResult
              (mkPath true ["d"; "slides.pptx"])
              (mkPath true ["d"; "out"; "slides.pdf"])
              ["/d/soffice"; "-env:x"; "--headless"; "--nologo";
               "--nofirststartwizard"; "--convert-to"; "pdf"; "--outdir";
               "/d/out"; "/d/slides.pptx"]
              (universal_newlines "ok") (universal_newlines ""))).
  vm_compute. reflexivity.
Defined.

(** ** The working directory *)

(** X11: when [convert] has got as far as building the command, the
    working directory handed to the converter exists as a directory, and
    every file and directory there was before is still there,
    unchanged. *)
Theorem prepare_makes_working_dir (input : path_like)
    (output_file output_dir soffice_path : option path_like)
    (timeout : option Q) (extra_args : option (list string))
    (w w1 : World) (plan : Converter.Plan) :
  Converter.prepare input output_file output_dir soffice_path
                    timeout extra_args w = (inr plan, w1) ->
  Fs.is_dir (w_fs w1) (PathIO.locate w1 (Converter.pl_target_dir plan)) = true
  /\ (forall k v, Fs.lookup (w_fs w) k = Some v ->
                  Fs.lookup (w_fs w1) k = Some v).
Proof.
  intros Hprep.
  destruct (prepare_success_inv _ _ _ _ _ _ _ _ _ Hprep)
    as (exe & fs1 & _ & _ & _ & _ & _ & Hmk & ->).
  unfold PathIO.locate in *. cbn [w_fs w_cwd set_fs].
  destruct (mkdir_p_spec _ _ _ _ Hmk) as [Hkeep Hdir].
  split; [apply Hdir; reflexivity|exact Hkeep].
Qed.

Lemma prepare_makes_working_dir_witness :
  Fs.is_dir (<[ ["d"; "a"; "b"] := Fs.Dir ]>
               (<[ ["d"; "a"] := Fs.Dir ]> Demo.fs)) ["d"; "a"; "b"] = true
  /\ (forall k v, Fs.lookup Demo.fs k = Some v ->
                  Fs.lookup (<[ ["d"; "a"; "b"] := Fs.Dir ]>
                               (<[ ["d"; "a"] := Fs.Dir ]> Demo.fs)) k
                  = Some v).
Proof.
  refine (prepare_makes_working_dir (PStr "slides.pptx") None
           (Some (PStr "a/b")) None None None Demo.world
           (set_fs (<[ ["d"; "a"; "b"] := Fs.Dir ]>
                      (<[ ["d"; "a"] := Fs.Dir ]> Demo.fs)) Demo.world)
           (Converter.mkPlan
              (mkPath true ["d"; "slides.pptx"])
              (mkPath true ["d"; "a"; "b"; "slides.pdf"])
              (mkPath true ["d"; "a"; "b"])
              ["/d/soffice"; "--headless"; "--nologo"; "--nofirststartwizard";
               "--convert-to"; "pdf"; "--outdir"; "/d/a/b"; "/d/slides.pptx"])
           _).
  vm_compute. reflexivity.
Defined.

(** X12: when the output directory names an existing regular file (below
    existing directories), [convert] raises [FileExistsError]; nothing
    has been created and no process has been started. *)
Theorem output_dir_is_a_file (run : runner) (input d : path_like)
    (output_file output_dir soffice_path : option path_like)
    (timeout : option Q) (extra_args : option (list string))
    (w : World) (ip exe wd : Path) (content : string) (x : bool) :
  truthy output_file = None ->
  truthy output_dir = Some d ->
  Converter.expand_resolve input w = (inr ip, w) ->
  Fs.exists_ (w_fs w) (PathIO.locate w ip) = true ->
  Converter.find_soffice (Converter.soffice_candidate soffice_path) w
  = (inr exe, w) ->
  Converter.expand_resolve d w = (inr wd, w) ->
  Fs.lookup (w_fs w) (PathIO.locate w wd) = Some (Fs.File content x) ->
  (forall i, (0 < i < length (PathIO.locate w wd))%nat ->
     Fs.lookup (w_fs w) (take i (PathIO.locate w wd)) = Some Fs.Dir) ->
  exists msg,
    Converter.convert run input output_file output_dir soffice_path
                      timeout extra_args w
    = (inl (FileExistsError msg), w).
Proof.
  intros Hnone Hd Hres Hex Hloc Hwd Hfile Hdirs.
  destruct (mkdir_p_leaf_file _ _ _ _ Hfile) as [msg Hmk].
  exists msg.
  unfold Converter.convert, bind.
  rewrite Hres, (exists_true _ _ Hex). cbn [negb].
  rewrite Hnone, Hd. unfold bind. rewrite Hloc, Hwd.
  unfold PathIO.mkdir_parents. rewrite Hmk, set_fs_same. reflexivity.
Qed.

Lemma output_dir_is_a_file_witness :
  exists msg,
    Converter.convert Demo.fails (PStr "slides.pptx") None
                      (Some (PStr "slides.pptx")) None None None Demo.world
    = (inl (FileExistsError msg), Demo.world).
Proof.
  apply (output_dir_is_a_file Demo.fails (PStr "slides.pptx")
           (PStr "slides.pptx") None (Some (PStr "slides.pptx"))
           None None None Demo.world
           (mkPath true ["d"; "slides.pptx"])
           (mkPath true ["d"; "soffice"])
           (mkPath true ["d"; "slides.pptx"]) "dummy" false);
    try (vm_compute; reflexivity).
  intros [|[|i]] Hi; cbn in Hi; try lia. vm_compute. reflexivity.
Defined.

(** ** The reported output exists *)

(** X9: the output path of every result names something that exists in
    the file system [convert] leaves behind. *)
Theorem convert_result_exists (run : runner) (input : path_like)
    (output_file output_dir soffice_path : option path_like)
    (timeout : option Q) (extra_args : option (list string))
    (w w' : World) (r : Converter.ConversionResult) :
  Converter.convert run input output_file output_dir soffice_path
                    timeout extra_args w = (inr r, w') ->
  Fs.exists_ (w_fs w') (PathIO.locate w' (Converter.output_path r)) = true.
Proof.
  rewrite convert_split. unfold bind at 1.
  destruct (Converter.prepare input output_file output_dir soffice_path
              timeout extra_args w) as [[e|plan] w1] eqn:Hprep;
    [discriminate|].
  intros Hfin.
  destruct (finish_success_inv _ _ _ _ _ _ _ Hfin)
    as (out & err & out' & err' & fs2 & found & _ & _ & _ & _ & _ & Hfound
        & Hend).
  destruct Hend as [[-> ->]|(f & fs3 & _ & _ & -> & Hrep & ->)];
    unfold PathIO.locate in *; cbn [w_fs w_cwd log_spawn set_fs].
  - exact Hfound.
  - eapply replace_dst_exists. exact Hrep.
Qed.

Lemma convert_result_exists_witness :
  Fs.exists_
    (w_fs (snd (Converter.convert (Demo.writes ["d"; "custom"; "slides.pdf"])
                  (PStr "slides.pptx") (Some (PStr "custom/presentation.pdf"))
                  None None None None Demo.world)))
    (PathIO.locate
       (snd (Converter.convert (Demo.writes ["d"; "custom"; "slides.pdf"])
               (PStr "slides.pptx") (Some (PStr "custom/presentation.pdf"))
               None None None None Demo.world))
       (Converter.output_path
          (Converter.mkResult
             (mkPath true ["d"; "slides.pptx"])
             (mkPath true ["d"; "custom"; "presentation.pdf"])
             ["/d/soffice"; "--headless"; "--nologo"; "--nofirststartwizard";
              "--convert-to"; "pdf"; "--outdir"; "/d/custom";
              "/d/slides.pptx"]
             "ok" "")))
  = true.
Proof.
  refine (convert_result_exists (Demo.writes ["d"; "custom"; "slides.pdf"])
            (PStr "slides.pptx") (Some (PStr "custom/presentation.pdf"))
            None None None None Demo.world _ _ _).
  vm_compute. reflexivity.
Defined.

(** ** More about the front end *)



(** ** How the locator fails *)

(** X14: when the locator fails it leaves the world untouched, and its
    error is either the [LibreOfficeNotFoundError] with the remediation
    text that ends a [PATH] search without a find, or the error that
    expanding, resolving or examining the candidate has raised; that
    error ends the call before [PATH] is looked at. *)
Theorem find_soffice_errors (candidate : option string) (w w' : World)
    (e : exn) :
  Converter.find_soffice candidate w = (inl e, w') ->
  w' = w
  /\ ((e = LibreOfficeNotFoundError Converter.not_found_message
       /\ Converter.search_PATH w = (inl e, w))
      \/ exists c, candidate = Some c /\ str_truthy c = true
           /\ (Converter.expand_resolve (PStr c) w = (inl e, w)
               \/ exists p, Converter.expand_resolve (PStr c) w = (inr p, w)
                    /\ PathIO.is_file p w = (inl e, w))).
Proof.
  intros Hfind. split; [eapply find_soffice_inv; exact Hfind|].
  revert Hfind. unfold Converter.find_soffice.
  assert (Hpath : Converter.search_PATH w = (inl e, w') ->
            e = LibreOfficeNotFoundError Converter.not_found_message
            /\ Converter.search_PATH w = (inl e, w)).
  { intros H. pose proof (search_PATH_world w) as Hw. rewrite H in Hw.
    cbn in Hw. subst w'. split; [|exact H]. revert H.
    unfold Converter.search_PATH, bind, Shutil.which.
    destruct (Shutil.search w "soffice" (w_PATH w)) as [r|];
      [|intros [= <-]; reflexivity].
    destruct (str_truthy r); [discriminate|intros [= <-]; reflexivity]. }
  destruct candidate as [c|]; [|intros H; left; exact (Hpath H)].
  destruct (str_truthy c) eqn:Hc; [|intros H; left; exact (Hpath H)].
  unfold bind.
  destruct (Converter.expand_resolve (PStr c) w) as [[e0|q] w0] eqn:Her;
    apply expand_resolve_inv in Her as Hw; subst w0.
  - intros [= <- _]. right. exists c. auto.
  - pose proof (is_file_world q w) as Hw.
    destruct (PathIO.is_file q w) as [[e0|isf] w0] eqn:Hf; cbn in Hw; subst w0.
    + intros [= <- _]. right. exists c. eauto 6.
    + destruct isf; [discriminate|]. intros H; left; exact (Hpath H).
Qed.

Lemma find_soffice_errors_witness :
  Demo.world = Demo.world
  /\ ((RuntimeError "Could not determine home directory."
       = LibreOfficeNotFoundError Converter.not_found_message
       /\ Converter.search_PATH Demo.world
          = (inl (RuntimeError "Could not determine home directory."),
             Demo.world))
      \/ exists c, Some "~ghost/soffice" = Some c /\ str_truthy c = true
           /\ (Converter.expand_resolve (PStr c) Demo.world
               = (inl (RuntimeError "Could not determine home directory."),
                  Demo.world)
               \/ exists p, Converter.expand_resolve (PStr c) Demo.world
                            = (inr p, Demo.world)
                    /\ PathIO.is_file p Demo.world
                       = (inl (RuntimeError
                                 "Could not determine home directory."),
                          Demo.world))).
Proof.
  refine (find_soffice_errors (Some "~ghost/soffice") Demo.world Demo.world
            (RuntimeError "Could not determine home directory.") _).
  vm_compute. reflexivity.
Defined.

(** ** Empty strings *)

(** X15: an empty string given as output file, as output directory or
    as executable override is an omitted argument: the call does what
    the call with [None] in its place does. *)
Theorem empty_strings_are_omitted (run : runner) (input : path_like)
    (output_file output_dir soffice_path : option path_like)
    (timeout : option Q) (extra_args : option (list string)) (w : World) :
  Converter.convert run input (Some (PStr "")) output_dir soffice_path
                    timeout extra_args w
  = Converter.convert run input None output_dir soffice_path
                      timeout extra_args w
  /\ Converter.convert run input output_file (Some (PStr "")) soffice_path
                       timeout extra_args w
     = Converter.convert run input output_file None soffice_path
                         timeout extra_args w
  /\ Converter.convert run input output_file output_dir (Some (PStr ""))
                       timeout extra_args w
     = Converter.convert run input output_file output_dir None
                         timeout extra_args w.
Proof. split; [reflexivity|split; reflexivity]. Qed.

(** In particular an empty output directory beside an output file is no
    conflict. *)
Example empty_output_dir_is_no_conflict :
  fst (Converter.convert (Demo.writes ["d"; "slides.pdf"]) (PStr "slides.pptx")
         (Some (PStr "slides.pdf")) (Some (PStr "")) None None None Demo.world)
  = inr (Converter.mkResult
           (mkPath true ["d"; "slides.pptx"])
           (mkPath true ["d"; "slides.pdf"])
           ["/d/soffice"; "--headless"; "--nologo"; "--nofirststartwizard";
            "--convert-to"; "pdf"; "--outdir"; "/d"; "/d/slides.pptx"]
           "ok" "").
Proof. vm_compute. reflexivity. Qed.
